(* ===== verification/_CoqProject ===== *)
-Q . S2P
Prelude.v
Decimal.v
Timestamp.v
Request.v
PyIO.v
Logging.v
Config.v
Services.v
Fakes.v
Workflow.v
Refinement.v
