(* ===== verification/Prelude.v ===== *)
(** * climateDataStore: a verification library for [src/cdsAPI.py]

    ** The program

    [src/cdsAPI.py] (78 lines) is a script that downloads ERA5 reanalysis
    fields (soil and lake-bottom temperature) from the Copernicus Climate
    Data Store and logs a preview of the file.  Its parts, in the order
    they run:
    - module initialisation (lines 9-20): [load_dotenv()] copies the [.env]
      file into the environment, [cdsapi.Client(url=os.getenv(...),
      key=os.getenv(...))] builds the global client, and
      [logging.basicConfig] configures the root logger;
    - [generate_output_filename] (22-25): ["<prefix>_<YYYYmmdd_HHMMSS>.nc"]
      from [datetime.now()];
    - [get_request_params] (27-51): the literal request dict;
    - [extract_data] (53-61): logs, calls [client.retrieve(dataset,
      request, output_file)], logs success, or logs the error and re-raises;
    - [preview_dataset] (63-70): [xr.open_dataset(nc_file, engine="netcdf4")]
      and logs [str(ds)], or logs the error and re-raises;
    - the main block (73-78): the dataset name, the request, the file name,
      then [extract_data] and [preview_dataset] in sequence.
    The components interact through the process state only: the file the
    retrieval writes is the file the preview reads, the clock gives the
    name, the environment gives the credentials, the logger configuration
    set at initialisation formats every line, and an exception stops
    everything after it.

    ** The library (in [_CoqProject] order)

    - [Prelude] (this file): the notation scope [cds_scope], the string,
      option and list lemmas every component shares (stdpp declares string
      append [simpl never]; [str_app_cons] and friends are what proofs
      rewrite with), [star] for transition sequences, the hint databases
      [cds] (auto) and [cds_rw] (autorewrite).
    - [Decimal]: zero-padded decimal rendering ([zpad], [fmt_int] = C's
      [%0Nd]/[strftime] fields and Python's ["%03d"]) with its inverse,
      width, round trip and order lemmas.
    - [Timestamp]: [datetime] with CPython's field ranges, a [strftime]
      interpreter, [generate_output_filename] (the clock is an argument),
      and a parser for generated names.
    - [Request]: Python values [PyVal], the dict as an insertion-ordered
      association list, [get_request_params] transcribed from the literal,
      a typed reading [of_dict] of a request dict, and what a request
      means to the archive ([requested_hours], [valid_area]).
    - [PyIO]: the process state [World] (files as a [gmap] from path to
      bytes, clock, environment, standard error lines, root logger, and the
      log of external calls: archive requests and file opens), Python
      exceptions with their place below [BaseException], and [PyM], a
      state-and-exception monad: [py_bind] sequences statements, [py_try]
      is [try/except Exception]; an exception keeps the world as it was
      when raised.  [stable p m] says [m] never changes the part [p].
    - [Logging]: the parts of CPython's [logging] the script runs:
      [basicConfig] (a no-op once a handler exists), module-level
      [info]/[error] (which call [basicConfig()] first when none exists),
      the level test, [%]-style formats, [formatTime].
    - [Config]: [load_dotenv] (entries of the file; later entries for a
      key win; the process environment wins over the file) and
      [os.getenv].
    - [Services]: the two libraries as type classes: [CdsClient]
      ([client.retrieve], and whether the constructor configures logging)
      with [CdsClientLaws] (a retrieval is one archive request; a returning
      one has written the target), [DatasetReader] ([xr.open_dataset],
      [str(ds)]) with [DatasetReaderLaws] (opening is one open and writes
      nothing).
    - [Fakes]: computing instances of both, with their laws proved: the
      dependency-injected fake client the spec's design notes ask for, and
      a reader that checks NetCDF signatures; they give the witnesses
      their concrete runs.
    - [Workflow]: [extract_data], [preview_dataset], [main],
      [module_init], [script] (initialisation then main) and [run_program]
      (exit status and the interpreter's traceback line), written as the
      source composes them; the theorems hold for every instance of the
      interfaces.
    - [Refinement]: [Contract.step], the spec's three-step workflow as a
      transition relation, and the refinement of [main] into it.

    ** What the theorems show

    - Error propagation ([Workflow]): a failing retrieval stops the run
      with the same exception, logged once if it is an [Exception] and not
      logged if it is a [KeyboardInterrupt] or [SystemExit] (the handler
      catches only [Exception]); the preview never starts.  A failing
      preview logs and re-raises and changes no file.
    - The process ([Workflow.run_program_exit]): for the configuration the
      initialisation returns, each of the three outcomes (retrieval
      raises; retrieval returns and the open raises; both return) with its
      exit status, the last log line and the traceback line, on the exact
      world the services left.
    - Log lines ([Workflow]): under the script's logging configuration,
      with services that leave the logger alone, the client is called on
      the world that has just the start line, the reader on the world the
      client left plus the success line, and the run ends with the preview
      line, or with the error line of the step that raised.
    - Sequencing ([Workflow], [Refinement]): when the retrieval returns,
      the preview opens the same path and the file is there; every run is
      a run of the contract, whose call log is one archive request for the
      clock-made name followed, only when it returned, by one open of that
      file.
    - Module initialisation ([Workflow], [Config]): credentials come from
      the environment first, then [.env]; when the client constructor calls
      [logging.basicConfig] itself (legacy [cdsapi] does) the script's own
      configuration is silently ignored.
    - File names ([Timestamp]): shape; round trip through a parser
      whatever the prefix; injective at second resolution, hence two runs
      in the same second share a name; names with one prefix sort
      chronologically.
    - Request ([Request]): the literal reads back as a request for 120
      consecutive valid hours of 11-15 March 2002 over a valid bounding
      box, as unarchived NetCDF.

    ** Bounds and fuel

    There is no loop in the program.  The one fuel is [ndigits_fuel]
    in [Decimal], whose fuel is the number itself: each step divides by
    ten, and [ndigits_fuel_le] proves the count exact for every number
    below [10 ^ w].  Dates are bounded by CPython's [datetime] ranges
    ([valid_datetime]); every timestamp theorem is stated for valid
    datetimes, which is what [datetime.now()] returns.

    ** Plan for the development

    Done: every component of [src/cdsAPI.py] is modelled, in the order of
    importance: the workflow's error propagation, sequencing and log
    lines, and the process exit ([Workflow], [Refinement]), module
    initialisation ([Config], [Workflow.module_init]), file names
    ([Timestamp]), the request ([Request]).  Next:
    - the client constructor's own failure (legacy [cdsapi] raises
      "Missing/incomplete configuration file" from [__init__], after its
      [basicConfig]), so that [module_init] can raise;
    - a fake client that logs its progress through a logger of its own,
      and one that advances the clock during the download.

    ** Not modelled

    The network protocol of the Climate Data Store and the download
    (behind [CdsClient]); NetCDF/HDF5 decoding and xarray's [repr] (behind
    [DatasetReader]); python-dotenv's file search and parser (its output is
    the argument of [load_dotenv]); the frames of a traceback; the
    [import] statements; time passing during a run, other than what a
    client instance does to the world; the client's serialisation of the
    request (JSON over HTTP), which is [cdsapi]'s code and not the
    script's.  The constructor [cdsapi.Client(...)] is modelled by its
    effect on logging only: its own failure without credentials (and its
    [~/.cdsapirc] fallback) is not modelled, so [module_init] always
    returns; a client without credentials raises from [retrieve].
    [%Y] is always padded to four digits (glibc before Python 3.13 prints
    years below 1000 unpadded, which no real clock returns).
*)

From stdpp Require Import base strings list.
From Stdlib Require Import String Ascii Lia NArith.

(** ** Notation scope of the development *)

Declare Scope cds_scope.
Delimit Scope cds_scope with cds.

(** ** Transition sequences *)

Section Star.
Context {S : Type} (R : S -> S -> Prop).

Inductive star : S -> S -> Prop :=
| star_refl s : star s s
| star_step s1 s2 s3 : R s1 s2 -> star s2 s3 -> star s1 s3.
End Star.

(** ** Generic lemmas on strings

    stdpp declares [String.append] (notation [+:+]) [simpl never]; the two
    computation rules below are what the proofs rewrite with instead. *)

Lemma str_app_nil_l (t : string) : "" +:+ t = t.
Proof. reflexivity. Qed.

Lemma str_app_cons (c : ascii) (s t : string) :
  String c s +:+ t = String c (s +:+ t).
Proof. reflexivity. Qed.

Ltac str_simpl := repeat rewrite ?str_app_nil_l, ?str_app_cons in *.

Lemma str_length_app (s t : string) :
  String.length (s +:+ t) = String.length s + String.length t.
Proof. induction s as [|c s IH]; str_simpl; simpl; [done|by rewrite IH]. Qed.

Lemma str_app_assoc (s t u : string) : s +:+ (t +:+ u) = (s +:+ t) +:+ u.
Proof. induction s as [|c s IH]; str_simpl; congruence. Qed.

Lemma str_app_nil_r (s : string) : s +:+ "" = s.
Proof. induction s as [|c s IH]; str_simpl; congruence. Qed.

(** Lexicographic comparison of concatenations whose left parts have the
    same length: the left parts decide unless they are equal. *)
Lemma str_compare_app (s1 s2 t1 t2 : string) :
  String.length s1 = String.length s2 ->
  String.compare (s1 +:+ t1) (s2 +:+ t2) =
  match String.compare s1 s2 with Eq => String.compare t1 t2 | c => c end.
Proof.
  revert s2. induction s1 as [|c s1 IH]; intros [|d s2] Hl;
    str_simpl; simpl in *; try done; try lia.
  destruct (Ascii.compare c d); auto.
Qed.

Lemma str_compare_refl (s : string) : String.compare s s = Eq.
Proof.
  induction s as [|c s IH]; simpl; [done|].
  unfold Ascii.compare. by rewrite N.compare_refl.
Qed.

(** Re-associate every concatenation to the right. *)
Ltac str_norm := repeat rewrite <- str_app_assoc.

Lemma substring_app_l (p r : string) :
  String.substring 0 (String.length p) (p +:+ r) = p.
Proof. induction p as [|c p IH]; str_simpl; simpl; [by destruct r|by rewrite IH]. Qed.

Lemma substring_full (r : string) : String.substring 0 (String.length r) r = r.
Proof. rewrite <- (str_app_nil_r r) at 2. by rewrite substring_app_l. Qed.

Lemma substring_app_r (p r : string) n :
  String.substring (String.length p) n (p +:+ r) = String.substring 0 n r.
Proof. induction p as [|c p IH]; str_simpl; simpl; [done|exact IH]. Qed.

(** ** Options *)

Lemma option_bind_Some {A B} (x : A) (f : A -> option B) : (Some x ≫= f) = f x.
Proof. done. Qed.

Section StarLemmas.
Context {S : Type} (R : S -> S -> Prop).

Lemma star_one s1 s2 : R s1 s2 -> star R s1 s2.
Proof. eauto using star. Qed.

Lemma star_trans s1 s2 s3 : star R s1 s2 -> star R s2 s3 -> star R s1 s3.
Proof. induction 1; eauto using star. Qed.
End StarLemmas.

(** ** Automation *)

Create HintDb cds discriminated.
Create Rewrite HintDb cds_rw.
#[export] Hint Rewrite str_length_app str_app_nil_l str_app_cons : cds_rw.
