(* ===== verification/Decimal.v ===== *)
(** * Zero-padded decimal rendering

    The timestamp code of [src/cdsAPI.py] renders every date and time field
    through C's [strftime] ([%Y], [%m], [%d], [%H], [%M], [%S]) and the
    logging module renders milliseconds with Python's ["%03d"]: each is a
    decimal number left-padded with ['0'] to a fixed width.  This file holds
    that rendering ([zpad], [fmt_int]), its inverse [parse_digits], and the
    facts the timestamp theorems rest on: width, round trip, and that
    comparing two renderings as strings compares the numbers. *)

From stdpp Require Import base strings list.
From Stdlib Require Import String Ascii Lia NArith.
From S2P Require Import Prelude.

(** ** Digits *)

Definition digit_char (d : nat) : ascii := ascii_of_N (48 + N.of_nat d).

Definition digit_value (c : ascii) : option nat :=
  let k := N_of_ascii c in
  if (48 <=? k)%N && (k <? 58)%N then Some (N.to_nat (k - 48)) else None.

(** [zpad w n]: the last [w] decimal digits of [n], most significant first;
    for [n < 10 ^ w] this is ["%0wd" % n]. *)
Fixpoint zpad (w n : nat) : string :=
  match w with
  | 0 => ""
  | S w' => String (digit_char ((n / 10 ^ w') mod 10)) (zpad w' n)
  end.

(** Number of decimal digits of [n] (at least one), by recursion on a fuel
    that is [n] itself: [n / 10 < n] for [n >= 10]. *)
Fixpoint ndigits_fuel (fuel n : nat) : nat :=
  match fuel with
  | 0 => 1
  | S f => if n <? 10 then 1 else S (ndigits_fuel f (n / 10))
  end.

Definition ndigits (n : nat) : nat := ndigits_fuel n n.

(** Python's ["%0wd" % n] and C's zero-padded numeric [strftime] fields:
    at least [w] digits, more when [n] needs them. *)
Definition fmt_int (w n : nat) : string := zpad (Nat.max w (ndigits n)) n.

(** The inverse, for a string made only of digits. *)
Fixpoint parse_digits_acc (acc : nat) (s : string) : option nat :=
  match s with
  | EmptyString => Some acc
  | String c s' =>
      match digit_value c with
      | Some d => parse_digits_acc (acc * 10 + d) s'
      | None => None
      end
  end.

Definition parse_digits (s : string) : option nat := parse_digits_acc 0 s.

Fixpoint all_digits (s : string) : bool :=
  match s with
  | EmptyString => true
  | String c s' => bool_decide (is_Some (digit_value c)) && all_digits s'
  end.

(** ** Lemmas *)

Lemma digit_value_char d : d < 10 -> digit_value (digit_char d) = Some d.
Proof.
  intros Hd. unfold digit_value, digit_char.
  rewrite N_ascii_embedding by lia.
  replace ((48 <=? 48 + N.of_nat d)%N && (48 + N.of_nat d <? 58)%N) with true
    by (symmetry; apply andb_true_intro; split; [apply N.leb_le|apply N.ltb_lt]; lia).
  f_equal. lia.
Qed.

Lemma digit_char_compare x y :
  x < 10 -> y < 10 -> Ascii.compare (digit_char x) (digit_char y) = Nat.compare x y.
Proof.
  intros Hx Hy. unfold Ascii.compare, digit_char.
  rewrite !N_ascii_embedding by lia.
  destruct (N.compare_spec (48 + N.of_nat x) (48 + N.of_nat y));
    destruct (Nat.compare_spec x y); try reflexivity; exfalso; lia.
Qed.

Lemma zpad_length w n : String.length (zpad w n) = w.
Proof. induction w; simpl; auto. Qed.

Lemma zpad_all_digits w n : all_digits (zpad w n) = true.
Proof.
  induction w as [|w IH]; cbn [zpad all_digits]; [done|].
  rewrite digit_value_char by (apply Nat.mod_upper_bound; lia).
  rewrite IH. done.
Qed.

Lemma mod_pow10_succ n w :
  n mod 10 ^ S w = (n / 10 ^ w) mod 10 * 10 ^ w + n mod 10 ^ w.
Proof.
  rewrite Nat.pow_succ_r', (Nat.mul_comm 10).
  rewrite Nat.Div0.mod_mul_r. lia.
Qed.

Lemma parse_digits_acc_zpad acc w n rest :
  parse_digits_acc acc (zpad w n +:+ rest) =
  parse_digits_acc (acc * 10 ^ w + n mod 10 ^ w) rest.
Proof.
  revert acc. induction w as [|w IH]; intros acc.
  - cbn [zpad]. rewrite str_app_nil_l, Nat.pow_0_r, Nat.mod_1_r. f_equal. lia.
  - cbn [zpad]. rewrite str_app_cons. cbn [parse_digits_acc].
    rewrite digit_value_char by (apply Nat.mod_upper_bound; lia).
    rewrite IH, mod_pow10_succ, Nat.pow_succ_r'. f_equal. lia.
Qed.

(** Round trip: reading back a rendering gives the number modulo [10 ^ w]. *)
Lemma parse_zpad w n : parse_digits (zpad w n) = Some (n mod 10 ^ w).
Proof.
  unfold parse_digits. rewrite <- (str_app_nil_r (zpad w n)).
  rewrite parse_digits_acc_zpad. simpl. done.
Qed.

Lemma zpad_small_inj w a b :
  a < 10 ^ w -> b < 10 ^ w -> zpad w a = zpad w b -> a = b.
Proof.
  intros Ha Hb Heq. apply (f_equal parse_digits) in Heq.
  rewrite !parse_zpad, !Nat.mod_small in Heq by done. congruence.
Qed.

Lemma compare_lex x y r s B :
  r < B -> s < B ->
  Nat.compare (x * B + r) (y * B + s) =
  match Nat.compare x y with Eq => Nat.compare r s | c => c end.
Proof.
  intros Hr Hs.
  destruct (Nat.compare_spec x y) as [->|H|H].
  - destruct (Nat.compare_spec r s); apply Nat.compare_eq_iff || apply Nat.compare_lt_iff
      || apply Nat.compare_gt_iff; lia.
  - apply Nat.compare_lt_iff. nia.
  - apply Nat.compare_gt_iff. nia.
Qed.

(** Comparing two renderings of the same width as strings compares the
    rendered numbers. *)
Lemma zpad_compare w a b :
  String.compare (zpad w a) (zpad w b) = Nat.compare (a mod 10 ^ w) (b mod 10 ^ w).
Proof.
  induction w as [|w IH]; [by rewrite Nat.pow_0_r, !Nat.mod_1_r|].
  cbn [zpad String.compare].
  rewrite digit_char_compare by (apply Nat.mod_upper_bound; lia).
  rewrite !(mod_pow10_succ _ w), compare_lex
    by (apply Nat.mod_upper_bound, Nat.pow_nonzero; lia).
  by rewrite IH.
Qed.

Lemma ndigits_fuel_le fuel n w :
  n <= fuel -> 1 <= w -> n < 10 ^ w -> ndigits_fuel fuel n <= w.
Proof.
  revert n w. induction fuel as [|f IH]; intros n w Hf Hw Hn; cbn [ndigits_fuel]; [lia|].
  destruct (Nat.ltb_spec n 10); [lia|].
  destruct w as [|[|w]]; [lia| simpl in Hn; lia|].
  enough (ndigits_fuel f (n / 10) <= S w) by lia.
  apply IH; [|lia|].
  - apply Nat.Div0.div_le_upper_bound. lia.
  - apply Nat.Div0.div_lt_upper_bound. rewrite <- Nat.pow_succ_r'. done.
Qed.

(** A number below [10 ^ w] is rendered by ["%0wd"] with exactly [w] digits. *)
Lemma fmt_int_small w n : 1 <= w -> n < 10 ^ w -> fmt_int w n = zpad w n.
Proof.
  intros Hw Hn. unfold fmt_int, ndigits. f_equal.
  apply Nat.max_l, ndigits_fuel_le; lia.
Qed.

Lemma all_digits_app s t : all_digits (s +:+ t) = all_digits s && all_digits t.
Proof. induction s as [|c s IH]; str_simpl; simpl; [done|by rewrite IH, andb_assoc]. Qed.

#[export] Hint Rewrite zpad_length : cds_rw.
