(* ===== verification/Timestamp.v ===== *)
(** * Output file names: [generate_output_filename]

    Models lines 22-25 of [src/cdsAPI.py]:
<<
    def generate_output_filename(prefix: str = "extract") -> str:
        timestamp = datetime.now().strftime("%Y%m%d_%H%M%S")
        return f"{prefix}_{timestamp}.nc"
>>
    [datetime.now()] is the clock read of the workflow ([Workflow.v] passes
    the world's clock); here the time is the argument [now].  [strftime] is
    an interpreter of C [strftime] format strings for the directives the
    program uses, over a [datetime] record with CPython's field ranges.
    The theorems: the name's shape, a parser that reads the
    prefix and the timestamp back (round trip), injectivity at second
    resolution (the spec's uniqueness claim, and its limit), and that names
    with one prefix sort as strings in chronological order. *)

From stdpp Require Import base strings list.
From Stdlib Require Import String Ascii Lia NArith.
From S2P Require Import Prelude Decimal.

(** ** [datetime] values *)

(** CPython's [datetime.datetime]: naive local time, microsecond
    resolution. *)
Record datetime := mk_datetime {
  year : nat; month : nat; day : nat;
  hour : nat; minute : nat; second : nat; microsecond : nat }.

Definition is_leap (y : nat) : bool :=
  (y mod 4 =? 0) && (negb (y mod 100 =? 0) || (y mod 400 =? 0)).

Definition days_in_month (y m : nat) : nat :=
  match m with
  | 1 | 3 | 5 | 7 | 8 | 10 | 12 => 31
  | 4 | 6 | 9 | 11 => 30
  | 2 => if is_leap y then 29 else 28
  | _ => 0
  end.

(** The ranges CPython's [datetime] constructor enforces
    ([MINYEAR = 1], [MAXYEAR = 9999 = 10 ^ 4 - 1]). *)
Definition valid_datetime (dt : datetime) : bool :=
  (1 <=? year dt) && (year dt <? 10 ^ 4) &&
  (1 <=? month dt) && (month dt <=? 12) &&
  (1 <=? day dt) && (day dt <=? days_in_month (year dt) (month dt)) &&
  (hour dt <? 24) && (minute dt <? 60) && (second dt <? 60) &&
  (microsecond dt <? 10 ^ 6).

(** The fields the timestamp keeps: everything down to the second. *)
Definition dt_key (dt : datetime) : list nat :=
  [year dt; month dt; day dt; hour dt; minute dt; second dt].

Fixpoint lex_compare (l1 l2 : list nat) : comparison :=
  match l1, l2 with
  | [], [] => Eq
  | [], _ => Lt
  | _, [] => Gt
  | x :: l1', y :: l2' =>
      match Nat.compare x y with Eq => lex_compare l1' l2' | c => c end
  end.

(** ** [strftime] *)

(** One conversion.  The numeric fields are zero-padded to the C library's
    widths; an unknown conversion is copied through, as glibc does. *)
Definition strftime_directive (c : ascii) (dt : datetime) : string :=
  match c with
  | "Y"%char => fmt_int 4 (year dt)
  | "m"%char => fmt_int 2 (month dt)
  | "d"%char => fmt_int 2 (day dt)
  | "H"%char => fmt_int 2 (hour dt)
  | "M"%char => fmt_int 2 (minute dt)
  | "S"%char => fmt_int 2 (second dt)
  | "%"%char => "%"
  | _ => String "%" (String c "")
  end.

Fixpoint strftime (fmt : string) (dt : datetime) : string :=
  match fmt with
  | EmptyString => EmptyString
  | String c rest =>
      if Ascii.eqb c "%" then
        match rest with
        | EmptyString => "%"
        | String d rest' => strftime_directive d dt +:+ strftime rest' dt
        end
      else String c (strftime rest dt)
  end.

Definition timestamp_format : string := "%Y%m%d_%H%M%S".

Definition default_prefix : string := "extract".

(** [generate_output_filename(prefix)] with [datetime.now()] = [now]. *)
Definition generate_output_filename (prefix : string) (now : datetime) : string :=
  prefix +:+ "_" +:+ strftime timestamp_format now +:+ ".nc".

(** ** Reading a name back *)

Definition split_at (n : nat) (s : string) : string * string :=
  (String.substring 0 n s, String.substring n (String.length s - n) s).

Definition parse_field (w : nat) (s : string) : option (nat * string) :=
  let '(a, b) := split_at w s in
  if decide (String.length a = w) then d ← parse_digits a; Some (d, b) else None.

Definition parse_lit (lit s : string) : option string :=
  let '(a, b) := split_at (String.length lit) s in
  if decide (a = lit) then Some b else None.

(** ["YYYYmmdd_HHMMSS"] followed by a rest. *)
Definition parse_timestamp (s : string) : option (list nat * string) :=
  '(y, s) ← parse_field 4 s; '(mo, s) ← parse_field 2 s; '(d, s) ← parse_field 2 s;
  s ← parse_lit "_" s;
  '(h, s) ← parse_field 2 s; '(mi, s) ← parse_field 2 s; '(se, s) ← parse_field 2 s;
  Some ([y; mo; d; h; mi; se], s).

(** ["<prefix>_<YYYYmmdd_HHMMSS>.nc"]: the last 19 characters are the
    timestamp part, whatever the prefix holds. *)
Definition parse_output_filename (name : string) : option (string * list nat) :=
  if decide (19 <= String.length name) then
    let '(p, rest) := split_at (String.length name - 19) name in
    s ← parse_lit "_" rest; '(k, s') ← parse_timestamp s;
    if decide (s' = ".nc") then Some (p, k) else None
  else None.

(** ** Lemmas *)

(** What [strftime] does with the program's format. *)
Lemma strftime_timestamp dt :
  strftime timestamp_format dt =
  fmt_int 4 (year dt) +:+ fmt_int 2 (month dt) +:+ fmt_int 2 (day dt) +:+ "_" +:+
  fmt_int 2 (hour dt) +:+ fmt_int 2 (minute dt) +:+ fmt_int 2 (second dt).
Proof.
  rewrite <- (str_app_nil_r (fmt_int 2 (second dt))). reflexivity.
Qed.

Lemma days_in_month_le y m : days_in_month y m <= 31.
Proof. unfold days_in_month. repeat (case_match; try lia). Qed.

Lemma valid_datetime_bounds dt :
  valid_datetime dt = true ->
  year dt < 10 ^ 4 /\ month dt < 10 ^ 2 /\ day dt < 10 ^ 2 /\
  hour dt < 10 ^ 2 /\ minute dt < 10 ^ 2 /\ second dt < 10 ^ 2.
Proof.
  intros Hv. unfold valid_datetime in Hv.
  rewrite !andb_true_iff, !Nat.leb_le, !Nat.ltb_lt in Hv.
  pose proof (days_in_month_le (year dt) (month dt)).
  change (10 ^ 2) with 100. lia.
Qed.

(** For a valid time every field has exactly its width. *)
Lemma strftime_timestamp_valid dt :
  valid_datetime dt = true ->
  strftime timestamp_format dt =
  zpad 4 (year dt) +:+ zpad 2 (month dt) +:+ zpad 2 (day dt) +:+ "_" +:+
  zpad 2 (hour dt) +:+ zpad 2 (minute dt) +:+ zpad 2 (second dt).
Proof.
  intros Hv. destruct (valid_datetime_bounds dt Hv) as (?&?&?&?&?&?).
  rewrite strftime_timestamp, !fmt_int_small by (done || lia). done.
Qed.

Lemma split_at_app p r : split_at (String.length p) (p +:+ r) = (p, r).
Proof.
  unfold split_at. rewrite substring_app_l, substring_app_r, str_length_app.
  by rewrite Nat.add_comm, Nat.add_sub, substring_full.
Qed.

Lemma parse_field_zpad w n r : parse_field w (zpad w n +:+ r) = Some (n mod 10 ^ w, r).
Proof.
  unfold parse_field. rewrite <- (zpad_length w n) at 1. rewrite split_at_app.
  rewrite decide_True by apply zpad_length. by rewrite parse_zpad.
Qed.

Lemma parse_lit_app lit r : parse_lit lit (lit +:+ r) = Some r.
Proof. unfold parse_lit. rewrite split_at_app. by rewrite decide_True. Qed.

Ltac parse_steps :=
  repeat (first [rewrite option_bind_Some | rewrite parse_field_zpad
                | rewrite parse_lit_app]; cbv beta iota).

Lemma generate_output_filename_valid p dt :
  valid_datetime dt = true ->
  generate_output_filename p dt =
  p +:+ "_" +:+ zpad 4 (year dt) +:+ zpad 2 (month dt) +:+ zpad 2 (day dt) +:+ "_" +:+
  zpad 2 (hour dt) +:+ zpad 2 (minute dt) +:+ zpad 2 (second dt) +:+ ".nc".
Proof.
  intros Hv. unfold generate_output_filename. rewrite strftime_timestamp_valid by done.
  by str_norm.
Qed.

Lemma generate_output_filename_length_valid p dt :
  valid_datetime dt = true ->
  String.length (generate_output_filename p dt) = String.length p + 19.
Proof.
  intros Hv. rewrite generate_output_filename_valid by done.
  rewrite !str_length_app, !zpad_length. simpl. lia.
Qed.

(** ** Theorems *)

(** C10: for every valid clock reading the name is the prefix, an
    underscore, eight digits (date), an underscore, six digits (time) and
    [".nc"]: the spec's [<prefix>_<YYYYMMDD_HHMMSS>.nc]. *)
Theorem output_filename_shape p dt :
  valid_datetime dt = true ->
  exists date time,
    generate_output_filename p dt = p +:+ "_" +:+ date +:+ "_" +:+ time +:+ ".nc" /\
    String.length date = 8 /\ String.length time = 6 /\
    all_digits date = true /\ all_digits time = true.
Proof.
  intros Hv.
  exists (zpad 4 (year dt) +:+ zpad 2 (month dt) +:+ zpad 2 (day dt)),
         (zpad 2 (hour dt) +:+ zpad 2 (minute dt) +:+ zpad 2 (second dt)).
  rewrite generate_output_filename_valid by done.
  rewrite !str_length_app, !all_digits_app, !zpad_length, !zpad_all_digits.
  by str_norm.
Qed.

Lemma output_filename_shape_witness :
  exists date time,
    generate_output_filename default_prefix (mk_datetime 2025 1 1 12 0 0 0) =
      default_prefix +:+ "_" +:+ date +:+ "_" +:+ time +:+ ".nc" /\
    String.length date = 8 /\ String.length time = 6 /\
    all_digits date = true /\ all_digits time = true.
Proof. apply output_filename_shape. vm_compute. reflexivity. Defined.

Lemma parse_generate_output_filename p dt :
  valid_datetime dt = true ->
  parse_output_filename (generate_output_filename p dt) = Some (p, dt_key dt).
Proof.
  intros Hv. unfold parse_output_filename.
  rewrite decide_True by (rewrite generate_output_filename_length_valid by done; lia).
  rewrite generate_output_filename_length_valid, Nat.add_sub by done.
  rewrite generate_output_filename_valid, split_at_app by done.
  unfold parse_timestamp. parse_steps.
  destruct (valid_datetime_bounds dt Hv) as (?&?&?&?&?&?).
  rewrite !Nat.mod_small by done. by rewrite decide_True.
Qed.

(** C11: reading a generated name back gives its prefix and the
    clock reading truncated to the second, whatever the prefix holds
    (underscores included). *)
Theorem output_filename_roundtrip p dt :
  valid_datetime dt = true ->
  parse_output_filename (generate_output_filename p dt) = Some (p, dt_key dt).
Proof. apply parse_generate_output_filename. Qed.

Lemma output_filename_roundtrip_witness :
  parse_output_filename (generate_output_filename "run_a" (mk_datetime 2002 3 11 23 5 9 42)) =
  Some ("run_a", dt_key (mk_datetime 2002 3 11 23 5 9 42)).
Proof. apply output_filename_roundtrip. vm_compute. reflexivity. Defined.

(** C12: two valid clock readings give the same name exactly when the
    prefixes agree and the readings agree down to the second; names from
    different seconds never collide. *)
Theorem output_filename_injective p1 p2 dt1 dt2 :
  valid_datetime dt1 = true -> valid_datetime dt2 = true ->
  generate_output_filename p1 dt1 = generate_output_filename p2 dt2 <->
  p1 = p2 /\ dt_key dt1 = dt_key dt2.
Proof.
  intros H1 H2. split.
  - intros Heq. apply (f_equal parse_output_filename) in Heq.
    rewrite (parse_generate_output_filename p1 dt1 H1), (parse_generate_output_filename p2 dt2 H2) in Heq.
    injection Heq; intros; subst; unfold dt_key; split; congruence.
  - intros [-> Hk]. unfold dt_key in Hk. simplify_eq.
    rewrite !generate_output_filename_valid by done. congruence.
Qed.

Lemma output_filename_injective_witness :
  generate_output_filename "extract" (mk_datetime 2025 1 1 12 0 0 0) <>
  generate_output_filename "extract" (mk_datetime 2025 1 1 12 0 1 0).
Proof.
  intros Heq. apply output_filename_injective in Heq;
    [discriminate (proj2 Heq) | vm_compute; reflexivity | vm_compute; reflexivity].
Defined.

Ltac compare_steps :=
  repeat (rewrite str_compare_app by (rewrite ?zpad_length; reflexivity));
  rewrite ?str_compare_refl, ?zpad_compare.

(** C13: names with one prefix compare as strings exactly as their clock
    readings compare chronologically (to the second), so a directory
    listing sorts the downloads by time. *)
Theorem output_filename_chronological p dt1 dt2 :
  valid_datetime dt1 = true -> valid_datetime dt2 = true ->
  String.compare (generate_output_filename p dt1) (generate_output_filename p dt2) =
  lex_compare (dt_key dt1) (dt_key dt2).
Proof.
  intros H1 H2. rewrite !generate_output_filename_valid by done.
  destruct (valid_datetime_bounds dt1 H1) as (?&?&?&?&?&?).
  destruct (valid_datetime_bounds dt2 H2) as (?&?&?&?&?&?).
  compare_steps. rewrite !Nat.mod_small by done. simpl.
  repeat case_match; done.
Qed.

Lemma output_filename_chronological_witness :
  String.compare (generate_output_filename "x" (mk_datetime 2024 12 31 23 59 59 0))
                 (generate_output_filename "x" (mk_datetime 2025 1 1 0 0 0 0)) =
  lex_compare (dt_key (mk_datetime 2024 12 31 23 59 59 0)) (dt_key (mk_datetime 2025 1 1 0 0 0 0)).
Proof. apply output_filename_chronological; vm_compute; reflexivity. Defined.
