(* ===== verification/Request.v ===== *)
(** * The request: [get_request_params]

    Models lines 27-51 of [src/cdsAPI.py].  The function returns a Python
    dict literal whose values are strings, integers and lists of them; the
    dict is modelled as an association list of [PyVal]s in insertion order
    (the order a Python dict keeps and [json.dumps] writes).

    Beside the literal, the file gives the request a typed reading:
    [RequestSpec] is the record of the fields the Climate Data Store reads,
    [to_dict] and [of_dict] convert between it and the dict, and
    [of_dict (to_dict r) = Some r] for every [r] (round trip).  The literal
    is [to_dict era5_request], and the theorems about it say what it asks
    the archive for: 120 consecutive valid hours of 11-15 March 2002, three
    variables, over a non-empty bounding box. *)

From stdpp Require Import base strings list.
From Stdlib Require Import String Ascii ZArith Lia.
From S2P Require Import Prelude Decimal Timestamp.

(** ** Python values *)

Inductive PyVal :=
| PyStr (s : string)
| PyInt (z : Z)
| PyList (l : list PyVal).

Definition PyDict := list (string * PyVal).

(** [d[k]]: the value stored under [k]; [None] is Python's [KeyError]. *)
Fixpoint py_getitem (d : PyDict) (k : string) : option PyVal :=
  match d with
  | [] => None
  | (k', v) :: d' => if decide (k = k') then Some v else py_getitem d' k
  end.

(** ** [get_request_params] *)

Definition get_request_params : PyDict :=
  [("product_type", PyList [PyStr "reanalysis"]);
   ("year", PyList [PyStr "2002"]);
   ("month", PyList [PyStr "03"]);
   ("day", PyList (map PyStr ["11"; "12"; "13"; "14"; "15"]));
   ("time", PyList (map PyStr
      ["00:00"; "01:00"; "02:00";
       "03:00"; "04:00"; "05:00";
       "06:00"; "07:00"; "08:00";
       "09:00"; "10:00"; "11:00";
       "12:00"; "13:00"; "14:00";
       "15:00"; "16:00"; "17:00";
       "18:00"; "19:00"; "20:00";
       "21:00"; "22:00"; "23:00"]));
   ("data_format", PyStr "netcdf");
   ("download_format", PyStr "unarchived");
   ("variable", PyList (map PyStr
      ["soil_temperature_level_1";
       "soil_temperature_level_2";
       "lake_bottom_temperature"]));
   ("area", PyList (map PyInt [-19; -48; -23; -43]%Z))].

(** ** The typed reading of a request *)

Record RequestSpec := mk_request {
  product_type : list string;
  req_years : list string;
  req_months : list string;
  req_days : list string;
  req_times : list string;
  data_format : string;
  download_format : string;
  variables : list string;
  (** north, west, south, east, in degrees *)
  area : Z * Z * Z * Z }.

Definition to_dict (r : RequestSpec) : PyDict :=
  let '(n, w, s, e) := area r in
  [("product_type", PyList (map PyStr (product_type r)));
   ("year", PyList (map PyStr (req_years r)));
   ("month", PyList (map PyStr (req_months r)));
   ("day", PyList (map PyStr (req_days r)));
   ("time", PyList (map PyStr (req_times r)));
   ("data_format", PyStr (data_format r));
   ("download_format", PyStr (download_format r));
   ("variable", PyList (map PyStr (variables r)));
   ("area", PyList (map PyInt [n; w; s; e]))].

Definition as_str (v : PyVal) : option string :=
  match v with PyStr s => Some s | _ => None end.

Definition as_int (v : PyVal) : option Z :=
  match v with PyInt z => Some z | _ => None end.

Definition as_list {A} (f : PyVal -> option A) (v : PyVal) : option (list A) :=
  match v with PyList l => mapM f l | _ => None end.

Definition as_box (v : PyVal) : option (Z * Z * Z * Z) :=
  l ← as_list as_int v;
  match l with [n; w; s; e] => Some (n, w, s, e) | _ => None end.

Definition of_dict (d : PyDict) : option RequestSpec :=
  pt ← py_getitem d "product_type" ≫= as_list as_str;
  ys ← py_getitem d "year" ≫= as_list as_str;
  ms ← py_getitem d "month" ≫= as_list as_str;
  ds ← py_getitem d "day" ≫= as_list as_str;
  ts ← py_getitem d "time" ≫= as_list as_str;
  df ← py_getitem d "data_format" ≫= as_str;
  dl ← py_getitem d "download_format" ≫= as_str;
  vs ← py_getitem d "variable" ≫= as_list as_str;
  bx ← py_getitem d "area" ≫= as_box;
  Some (mk_request pt ys ms ds ts df dl vs bx).

(** The request the script builds, as a record. *)
Definition era5_request : RequestSpec :=
  mk_request ["reanalysis"] ["2002"] ["03"] ["11"; "12"; "13"; "14"; "15"]
    (map (λ h, zpad 2 h +:+ ":00") (seq 0 24))
    "netcdf" "unarchived"
    ["soil_temperature_level_1"; "soil_temperature_level_2"; "lake_bottom_temperature"]
    (-19, -48, -23, -43)%Z.

(** ** What a request asks for *)

(** ["HH:MM"] *)
Definition parse_hhmm (s : string) : option (nat * nat) :=
  '(h, s) ← parse_field 2 s; s ← parse_lit ":" s; '(m, s) ← parse_field 2 s;
  if decide (s = "") then Some (h, m) else None.

Definition parse_exact (w : nat) (s : string) : option nat :=
  '(n, rest) ← parse_field w s; if decide (rest = "") then Some n else None.

(** The archive expands a request into the product of its years, months,
    days and times. *)
Definition requested_hours (r : RequestSpec) : option (list datetime) :=
  ys ← mapM (parse_exact 4) (req_years r);
  ms ← mapM (parse_exact 2) (req_months r);
  ds ← mapM (parse_exact 2) (req_days r);
  ts ← mapM parse_hhmm (req_times r);
  Some (y ← ys; m ← ms; d ← ds; '(h, mi) ← ts; [mk_datetime y m d h mi 0 0]).

#[export] Instance datetime_eq_dec : EqDecision datetime.
Proof. solve_decision. Defined.

(** One hour later on the calendar. *)
Definition next_hour (dt : datetime) : datetime :=
  if S (hour dt) <? 24 then
    mk_datetime (year dt) (month dt) (day dt) (S (hour dt)) (minute dt) (second dt) (microsecond dt)
  else if S (day dt) <=? days_in_month (year dt) (month dt) then
    mk_datetime (year dt) (month dt) (S (day dt)) 0 (minute dt) (second dt) (microsecond dt)
  else if S (month dt) <=? 12 then
    mk_datetime (year dt) (S (month dt)) 1 0 (minute dt) (second dt) (microsecond dt)
  else mk_datetime (S (year dt)) 1 1 0 (minute dt) (second dt) (microsecond dt).

Fixpoint hourly (l : list datetime) : bool :=
  match l with
  | a :: ((b :: _) as l') => bool_decide (b = next_hour a) && hourly l'
  | _ => true
  end.

(** Latitudes north to south and longitudes west to east, in range. *)
Definition valid_area (b : Z * Z * Z * Z) : bool :=
  let '(n, w, s, e) := b in
  bool_decide (-90 <= s /\ s <= n /\ n <= 90 /\ -180 <= w /\ w <= e /\ e <= 180)%Z.

Lemma as_list_map {A} (f : PyVal -> option A) (g : A -> PyVal) (l : list A) :
  (forall x, f (g x) = Some x) -> as_list f (PyList (map g l)) = Some l.
Proof.
  intros Hfg. simpl. induction l as [|x l IH]; simpl; [done|].
  rewrite Hfg, IH. done.
Qed.

(** ** Theorems *)

Lemma get_request_params_to_dict : get_request_params = to_dict era5_request.
Proof. vm_compute. reflexivity. Qed.

Lemma of_dict_to_dict (r : RequestSpec) : of_dict (to_dict r) = Some r.
Proof.
  destruct r as [pt ys ms ds ts df dl vs [[[n w] s] e]].
  unfold of_dict, to_dict. simpl py_getitem.
  rewrite !option_bind_Some, !as_list_map by done. simpl. done.
Qed.

(** C14: the script asks for the 120 hours of 11-15 March 2002,
    each a valid date and time, one hour apart, over a non-empty box of
    south-eastern Brazil, as unarchived NetCDF. *)
Theorem era5_request_meaning :
  of_dict get_request_params = Some era5_request /\
  exists hours, requested_hours era5_request = Some hours /\
    List.length hours = 120 /\ Forall (λ dt, valid_datetime dt = true) hours /\
    hourly hours = true /\
    hours !! 0 = Some (mk_datetime 2002 3 11 0 0 0 0) /\
    hours !! 119 = Some (mk_datetime 2002 3 15 23 0 0 0) /\
    valid_area (area era5_request) = true /\
    data_format era5_request = "netcdf" /\ download_format era5_request = "unarchived".
Proof.
  split; [by rewrite get_request_params_to_dict, of_dict_to_dict|].
  exists (default [] (requested_hours era5_request)).
  split; [vm_compute; reflexivity|]. split; [vm_compute; reflexivity|].
  split; [apply List.Forall_forall, forallb_forall; vm_compute; reflexivity|].
  repeat split; vm_compute; reflexivity.
Qed.
