(* ===== verification/PyIO.v ===== *)
(** * The Python process: world, exceptions, and statement sequencing

    The script runs as one Python process whose observable state is the
    local file system (the NetCDF file it downloads), the wall clock it
    reads ([datetime.now()], [time.time()] inside logging), the process
    environment ([os.environ], filled by [load_dotenv]), the standard error
    stream (where logging's [StreamHandler] writes), the root logger's
    configuration, and the requests it has made of the outside world
    (archive requests, file opens).  [World] is that state.

    A statement sequence is a [PyM] computation: a function from the world
    to an outcome and the world after it.  An exception does not roll the
    world back: what the statements before the [raise] did stays done.
    [py_try] is [try: ... except Exception as e: ...]: it catches only
    exceptions derived from [Exception], so [KeyboardInterrupt] and
    [SystemExit] pass through it. *)

From stdpp Require Import base strings list gmap.
From Stdlib Require Import String Ascii.
From Stdlib Require Init.Byte Strings.Byte.
From S2P Require Import Prelude Timestamp Request.

(** ** Exceptions *)

(** Where a class sits below [BaseException]. *)
Inductive ExcClass :=
| SubclassOfException
| KeyboardInterrupt
| SystemExit (code : nat).

Record PyExc := mk_exc {
  exc_type : string;     (** the class name, e.g. ["HTTPError"] *)
  exc_str : string;      (** [str(e)] *)
  exc_class : ExcClass }.

Definition is_exception (e : PyExc) : bool :=
  match exc_class e with SubclassOfException => true | _ => false end.

Inductive outcome (A : Type) :=
| Ret (a : A)
| Raise (e : PyExc).
Arguments Ret {A} a.
Arguments Raise {A} e.

(** ** The world *)

#[export] Instance byte_eq_decision : EqDecision Byte.byte := Byte.byte_eq_dec.

(** The root logger: its level and, for each attached [StreamHandler] on
    [sys.stderr], the format string of its [Formatter]. *)
Record LogState := mk_logstate {
  root_level : nat;
  handler_formats : list string }.

(** What the process asks of the outside world through the two libraries:
    a request sent to the archive ([client.retrieve(dataset, request,
    target)]) and a file opened by the reader
    ([xr.open_dataset(path, engine=...)]).  The services append them;
    the script never reads this log. *)
Inductive Event :=
| EvRetrieve (dataset : string) (request : PyDict) (target : string)
| EvOpen (path engine : string).

Record World := mk_world {
  w_files : gmap string (list Byte.byte);
  w_clock : datetime;
  w_env : gmap string string;
  w_stderr : list string;
  w_log : LogState;
  w_events : list Event }.

Definition set_files (fs : gmap string (list Byte.byte)) (w : World) : World :=
  mk_world fs (w_clock w) (w_env w) (w_stderr w) (w_log w) (w_events w).
Definition set_env (env : gmap string string) (w : World) : World :=
  mk_world (w_files w) (w_clock w) env (w_stderr w) (w_log w) (w_events w).
Definition append_stderr (l : list string) (w : World) : World :=
  mk_world (w_files w) (w_clock w) (w_env w) (w_stderr w ++ l) (w_log w) (w_events w).
Definition set_log (ls : LogState) (w : World) : World :=
  mk_world (w_files w) (w_clock w) (w_env w) (w_stderr w) ls (w_events w).
Definition record_event (ev : Event) (w : World) : World :=
  mk_world (w_files w) (w_clock w) (w_env w) (w_stderr w) (w_log w) (w_events w ++ [ev]).

(** ** Statement sequences *)

Definition PyM (A : Type) : Type := World -> outcome A * World.

Definition py_ret {A} (a : A) : PyM A := λ w, (Ret a, w).

Definition py_bind {A B} (m : PyM A) (k : A -> PyM B) : PyM B :=
  λ w, match m w with
       | (Ret a, w') => k a w'
       | (Raise e, w') => (Raise e, w')
       end.

Definition py_raise {A} (e : PyExc) : PyM A := λ w, (Raise e, w).

(** [try: body except Exception as e: handler(e)] *)
Definition py_try {A} (body : PyM A) (handler : PyExc -> PyM A) : PyM A :=
  λ w, match body w with
       | (Raise e, w') => if is_exception e then handler e w' else (Raise e, w')
       | r => r
       end.

Definition py_get : PyM World := λ w, (Ret w, w).
Definition py_modify (f : World -> World) : PyM unit := λ w, (Ret tt, f w).

(** [datetime.now()] *)
Definition now : PyM datetime := λ w, (Ret (w_clock w), w).

Notation "x <- m ;; k" := (py_bind m (λ x, k))
  (at level 100, m at level 99, right associativity) : cds_scope.
Notation "m ;; k" := (py_bind m (λ _, k))
  (at level 100, right associativity) : cds_scope.
Open Scope cds_scope.

(** ** Lemmas *)

Lemma py_bind_ret {A B} (a : A) (k : A -> PyM B) w : py_bind (py_ret a) k w = k a w.
Proof. done. Qed.

Lemma py_bind_Ret {A B} (m : PyM A) (k : A -> PyM B) w a w' :
  m w = (Ret a, w') -> py_bind m k w = k a w'.
Proof. intros H. unfold py_bind. by rewrite H. Qed.

Lemma py_bind_Raise {A B} (m : PyM A) (k : A -> PyM B) w e w' :
  m w = (Raise e, w') -> py_bind m k w = (Raise e, w').
Proof. intros H. unfold py_bind. by rewrite H. Qed.

Lemma py_bind_assoc {A B C} (m : PyM A) (k : A -> PyM B) (h : B -> PyM C) w :
  py_bind (py_bind m k) h w = py_bind m (λ a, py_bind (k a) h) w.
Proof. unfold py_bind. destruct (m w) as [[a|e] w']; done. Qed.

Lemma py_try_Ret {A} (body : PyM A) handler w a w' :
  body w = (Ret a, w') -> py_try body handler w = (Ret a, w').
Proof. intros H. unfold py_try. by rewrite H. Qed.

Lemma py_try_catch {A} (body : PyM A) handler w e w' :
  body w = (Raise e, w') -> is_exception e = true -> py_try body handler w = handler e w'.
Proof. intros H He. unfold py_try. by rewrite H, He. Qed.

Lemma py_try_pass {A} (body : PyM A) handler w e w' :
  body w = (Raise e, w') -> is_exception e = false -> py_try body handler w = (Raise e, w').
Proof. intros H He. unfold py_try. by rewrite H, He. Qed.

(** ** Computations that leave part of the world alone *)

(** [stable p m]: running [m] never changes the part [p] of the world. *)
Definition stable {T A} (p : World -> T) (m : PyM A) : Prop :=
  forall w, p (snd (m w)) = p w.

Abbreviation files_stable := (stable w_files).

Section Stable.
Context {T : Type} (p : World -> T).

Lemma stable_ret {A} (a : A) : stable p (py_ret a).
Proof. done. Qed.

Lemma stable_raise {A} e : stable (A:=A) p (py_raise e).
Proof. done. Qed.

Lemma stable_now : stable p now.
Proof. done. Qed.

Lemma stable_get : stable p py_get.
Proof. done. Qed.

Lemma stable_bind {A B} (m : PyM A) (k : A -> PyM B) :
  stable p m -> (forall a, stable p (k a)) -> stable p (py_bind m k).
Proof.
  intros Hm Hk w. unfold py_bind. specialize (Hm w).
  destruct (m w) as [[a|e] w'] eqn:E; simpl in *; [by rewrite Hk|done].
Qed.

Lemma stable_try {A} (body : PyM A) handler :
  stable p body -> (forall e, stable p (handler e)) -> stable p (py_try body handler).
Proof.
  intros Hb Hh w. unfold py_try. specialize (Hb w).
  destruct (body w) as [[a|e] w'] eqn:E; simpl in *; [done|].
  destruct (is_exception e); [by rewrite Hh|done].
Qed.

Lemma stable_modify f : (forall w, p (f w) = p w) -> stable p (py_modify f).
Proof. intros Hf w. apply Hf. Qed.
End Stable.

(** The parts of the world that logging does not touch. *)
Definition log_frame {T} (p : World -> T) : Prop :=
  (forall w ls, p (set_log ls w) = p w) /\ (forall w l, p (append_stderr l w) = p w).

Lemma log_frame_files : log_frame w_files.
Proof. done. Qed.
Lemma log_frame_clock : log_frame w_clock.
Proof. done. Qed.
Lemma log_frame_env : log_frame w_env.
Proof. done. Qed.
Lemma log_frame_events : log_frame w_events.
Proof. done. Qed.

#[export] Hint Resolve stable_ret stable_raise stable_now stable_get
  stable_bind stable_try log_frame_files log_frame_clock log_frame_env
  log_frame_events : cds.
