(* ===== verification/Logging.v ===== *)
(** * The [logging] module as the script uses it

    Lines 16-20 of [src/cdsAPI.py] configure the root logger,
<<
    logging.basicConfig(level=logging.INFO,
        format="%(asctime)s - %(levelname)s - %(message)s")
>>
    and the handlers log through [logging.info] and [logging.error].  This
    file models the parts of CPython's [logging] those calls run:
    [basicConfig] (which does nothing once the root logger has a handler),
    the module-level [info]/[error] (which call [basicConfig()] first when
    the root logger has none), the level test, [Formatter.format] with
    [%]-style format strings, [formatTime]'s default [asctime], and the
    [StreamHandler] writing one line per record to standard error. *)

From stdpp Require Import base strings list gmap.
From Stdlib Require Import String Ascii.
From S2P Require Import Prelude Decimal Timestamp PyIO.

(** ** Levels and records *)

Definition NOTSET := 0.
Definition DEBUG := 10.
Definition INFO := 20.
Definition WARNING := 30.
Definition ERROR := 40.
Definition CRITICAL := 50.

Definition level_name (lvl : nat) : string :=
  if decide (lvl = CRITICAL) then "CRITICAL"
  else if decide (lvl = ERROR) then "ERROR"
  else if decide (lvl = WARNING) then "WARNING"
  else if decide (lvl = INFO) then "INFO"
  else if decide (lvl = DEBUG) then "DEBUG"
  else if decide (lvl = NOTSET) then "NOTSET"
  else "Level " +:+ fmt_int 1 lvl.

Record LogRecord := mk_record {
  rec_name : string;
  rec_level : nat;
  rec_msg : string;
  rec_created : datetime }.

(** [Formatter.formatTime] with the default formats
    ["%Y-%m-%d %H:%M:%S"] and ["%s,%03d"] (milliseconds). *)
Definition format_time (dt : datetime) : string :=
  strftime "%Y-%m-%d %H:%M:%S" dt +:+ "," +:+ fmt_int 3 (microsecond dt / 1000).

Definition record_attr (r : LogRecord) (key : string) : option string :=
  if decide (key = "asctime") then Some (format_time (rec_created r))
  else if decide (key = "levelname") then Some (level_name (rec_level r))
  else if decide (key = "message") then Some (rec_msg r)
  else if decide (key = "name") then Some (rec_name r)
  else None.

(** ** [%]-style formatting with a mapping *)

(** Where the formatter is inside a format string: copying text, just
    after a [%], reading a [%(key)] or just after its [)]. *)
Inductive PctState :=
| PNormal
| PPercent
| PKey (key : string)
| PAfterKey (key : string).

(** [fmt % mapping] for the conversions the program's formats use ([%%]
    and [%(key)s]); [None] is the [KeyError] or [ValueError] Python raises. *)
Fixpoint pct_format (lookup : string -> option string) (st : PctState) (s : string)
    : option string :=
  match s with
  | EmptyString => match st with PNormal => Some "" | _ => None end
  | String c s' =>
      match st with
      | PNormal =>
          if Ascii.eqb c "%" then pct_format lookup PPercent s'
          else String c <$> pct_format lookup PNormal s'
      | PPercent =>
          if Ascii.eqb c "%" then String "%" <$> pct_format lookup PNormal s'
          else if Ascii.eqb c "(" then pct_format lookup (PKey "") s'
          else None
      | PKey k =>
          if Ascii.eqb c ")" then pct_format lookup (PAfterKey k) s'
          else pct_format lookup (PKey (k +:+ String c "")) s'
      | PAfterKey k =>
          if Ascii.eqb c "s" then
            v ← lookup k; rest ← pct_format lookup PNormal s'; Some (v +:+ rest)
          else None
      end
  end.

(** [Formatter(fmt).format(record)] *)
Definition format_record (fmt : string) (r : LogRecord) : option string :=
  pct_format (record_attr r) PNormal fmt.

(** ** Configuration and emission *)

Definition BASIC_FORMAT : string := "%(levelname)s:%(name)s:%(message)s".

(** The root logger of a fresh interpreter: level [WARNING], no handler. *)
Definition initial_logstate : LogState := mk_logstate WARNING [].

(** [logging.basicConfig(level=..., format=...)]: only when the root logger
    has no handler, attach a [StreamHandler] with the format (default
    [BASIC_FORMAT]) and set the level if one is given. *)
Definition basicConfig_state (level : option nat) (fmt : option string) (ls : LogState)
    : LogState :=
  if decide (handler_formats ls = []) then
    mk_logstate (default (root_level ls) level) [default BASIC_FORMAT fmt]
  else ls.

Definition basicConfig (level : option nat) (fmt : option string) : PyM unit :=
  py_modify (λ w, set_log (basicConfig_state level fmt (w_log w)) w).

(** [StreamHandler.emit]: one line per record on standard error; a record
    the format cannot render goes to [handleError], which reports it. *)
Definition emit_line (fmt : string) (r : LogRecord) : string :=
  default "--- Logging error ---" (format_record fmt r).

(** [root.log(lvl, msg)]: the level test, then every handler in order. *)
Definition root_log (lvl : nat) (msg : string) : PyM unit :=
  py_modify (λ w,
    let ls := w_log w in
    if decide (root_level ls <= lvl) then
      let r := mk_record "root" lvl msg (w_clock w) in
      append_stderr (map (λ f, emit_line f r) (handler_formats ls)) w
    else w).

(** The module-level [logging.info(msg)] and [logging.error(msg)]. *)
Definition log_at (lvl : nat) (msg : string) : PyM unit :=
  w <- py_get ;;
  (if decide (handler_formats (w_log w) = []) then basicConfig None None
   else py_ret tt) ;;
  root_log lvl msg.

Definition log_info (msg : string) : PyM unit := log_at INFO msg.
Definition log_error (msg : string) : PyM unit := log_at ERROR msg.

(** The script's own configuration, lines 17-20. *)
Definition script_log_format : string := "%(asctime)s - %(levelname)s - %(message)s".

Definition configure_logging : PyM unit := basicConfig (Some INFO) (Some script_log_format).

(** The logging state after [configure_logging] on a logger without a
    handler. *)
Definition script_logstate : LogState := mk_logstate INFO [script_log_format].

Definition script_line (lvl : nat) (msg : string) (t : datetime) : string :=
  format_time t +:+ " - " +:+ level_name lvl +:+ " - " +:+ msg.

(** ** Lemmas *)

Lemma format_record_script r :
  format_record script_log_format r =
  Some (format_time (rec_created r) +:+ " - " +:+ level_name (rec_level r) +:+ " - " +:+ rec_msg r).
Proof. rewrite <- (str_app_nil_r (rec_msg r)). reflexivity. Qed.

Section LogFrame.
Context {T : Type} (p : World -> T) (Hp : log_frame p).

Lemma stable_basicConfig lvl fmt : stable p (basicConfig lvl fmt).
Proof. apply stable_modify. intros w. apply Hp. Qed.

Lemma stable_root_log lvl msg : stable p (root_log lvl msg).
Proof. apply stable_modify. intros w. simpl. case_decide; [apply Hp|done]. Qed.

Lemma stable_log_at lvl msg : stable p (log_at lvl msg).
Proof.
  unfold log_at. apply stable_bind; [auto with cds|intros w].
  apply stable_bind; [case_decide|];
    auto using stable_basicConfig, stable_root_log with cds.
Qed.
End LogFrame.

#[export] Hint Resolve stable_basicConfig stable_root_log stable_log_at : cds.

(** Once the root logger has a handler and a level at most [lvl], a call
    at [lvl] appends one line per handler and changes nothing else. *)
Lemma log_at_configured lvl msg w :
  handler_formats (w_log w) <> [] -> root_level (w_log w) <= lvl ->
  log_at lvl msg w =
  (Ret tt, append_stderr (map (λ f, emit_line f (mk_record "root" lvl msg (w_clock w)))
                             (handler_formats (w_log w))) w).
Proof.
  intros Hh Hl. unfold log_at, py_bind, py_get. simpl.
  rewrite decide_False by done. unfold root_log, py_modify. simpl.
  by rewrite decide_True by done.
Qed.

Lemma log_at_script lvl msg w :
  w_log w = script_logstate -> INFO <= lvl ->
  log_at lvl msg w = (Ret tt, append_stderr [script_line lvl msg (w_clock w)] w).
Proof.
  intros Hs Hl. rewrite log_at_configured by (rewrite Hs; simpl; done || lia).
  rewrite Hs. simpl. unfold emit_line. by rewrite format_record_script.
Qed.

