(* ===== verification/Config.v ===== *)
(** * Credentials: [load_dotenv] and [os.getenv]

    Lines 9-14 of [src/cdsAPI.py]:
<<
    load_dotenv()
    client = cdsapi.Client(url=os.getenv("CDSAPI_URL"), key=os.getenv("CDSAPI_KEY"))
>>
    [load_dotenv()] reads the [.env] file python-dotenv finds, builds a
    dict from its entries (a later entry for a key replaces an earlier one;
    a bare [KEY] line has the value [None]) and copies the entries with a
    value into [os.environ], skipping a variable that is already set
    ([override=False], its default).  The file's parsed entries are the
    argument [dotenv] (the parser, its variable interpolation and the
    directory search belong to python-dotenv and are not modelled).
    [os.getenv] reads the environment; a missing variable is [None]. *)

From stdpp Require Import base strings list gmap.
From Stdlib Require Import String.
From S2P Require Import Prelude PyIO.

(** What [cdsapi.Client(url=..., key=...)] receives. *)
Record ClientConfig := mk_config {
  cfg_url : option string;
  cfg_key : option string }.

(** A parsed line of a [.env] file: [KEY=value], or a bare [KEY]. *)
Abbreviation DotenvEntry := (string * option string)%type.

(** The dict python-dotenv builds from the file's entries: a later entry
    for a key replaces an earlier one. *)
Definition dotenv_dict (entries : list DotenvEntry) : gmap string (option string) :=
  foldl (λ m '(k, v), <[k := v]> m) ∅ entries.

(** The file's last entry for a key, if it has one. *)
Definition dotenv_last (entries : list DotenvEntry) (k : string) : option (option string) :=
  snd <$> last (filter (λ kv, kv.1 = k) entries).

(** [load_dotenv()]: the entries with a value, where the environment has
    none. *)
Definition load_dotenv (dotenv : list DotenvEntry) : PyM unit :=
  py_modify (λ w, set_env (w_env w ∪ omap id (dotenv_dict dotenv)) w).

(** [os.getenv(k)] *)
Definition getenv (k : string) : PyM (option string) := λ w, (Ret (w_env w !! k), w).

(** The two [os.getenv] calls of line 11-14, in the order Python
    evaluates the keyword arguments. *)
Definition read_client_config : PyM ClientConfig :=
  url <- getenv "CDSAPI_URL" ;;
  key <- getenv "CDSAPI_KEY" ;;
  py_ret (mk_config url key).

(** The value [os.getenv] sees after [load_dotenv()]: the process
    environment's when it has the variable, else the value of the file's
    last entry for it. *)
Definition env_or_dotenv (env : gmap string string) (entries : list DotenvEntry)
    (k : string) : option string :=
  match env !! k with
  | Some v => Some v
  | None => match dotenv_last entries k with Some (Some v) => Some v | _ => None end
  end.

(** ** Lemmas *)

Lemma dotenv_dict_foldl entries (m : gmap string (option string)) k :
  foldl (λ m '(k, v), <[k := v]> m) m entries !! k =
  match dotenv_last entries k with Some v => Some v | None => m !! k end.
Proof.
  revert m. induction entries as [|[k' v'] rest IH] using rev_ind; intros m; [done|].
  rewrite foldl_app. simpl. unfold dotenv_last in *.
  rewrite filter_app, filter_cons, filter_nil. simpl. case_decide as Hk.
  - subst. rewrite last_snoc, lookup_insert_eq. done.
  - rewrite app_nil_r, lookup_insert_ne by done. apply IH.
Qed.

Lemma dotenv_dict_lookup entries k : dotenv_dict entries !! k = dotenv_last entries k.
Proof.
  unfold dotenv_dict. rewrite dotenv_dict_foldl. by destruct (dotenv_last entries k).
Qed.

Lemma load_dotenv_lookup entries w k :
  w_env (snd (load_dotenv entries w)) !! k = env_or_dotenv (w_env w) entries k.
Proof.
  simpl. rewrite lookup_union, lookup_omap, dotenv_dict_lookup. unfold env_or_dotenv.
  by destruct (w_env w !! k), (dotenv_last entries k) as [[]|].
Qed.

Lemma read_client_config_after_dotenv entries w :
  let w1 := snd (load_dotenv entries w) in
  read_client_config w1 =
  (Ret (mk_config (env_or_dotenv (w_env w) entries "CDSAPI_URL")
                  (env_or_dotenv (w_env w) entries "CDSAPI_KEY")), w1) /\
  w_env w ⊆ w_env w1.
Proof.
  simpl. split.
  - unfold read_client_config, py_bind, getenv, py_ret, env_or_dotenv. simpl.
    by rewrite !(load_dotenv_lookup entries w).
  - apply map_union_subseteq_l.
Qed.

(** C9: after [load_dotenv()] the client receives, for the URL and
    for the key, the variable of the process environment when it is set and
    otherwise the value of the [.env] file's last entry for it (none if
    that entry is a bare key); the environment loses nothing. *)
Theorem client_config_after_dotenv entries w :
  let w1 := snd (load_dotenv entries w) in
  read_client_config w1 =
  (Ret (mk_config (env_or_dotenv (w_env w) entries "CDSAPI_URL")
                  (env_or_dotenv (w_env w) entries "CDSAPI_KEY")), w1) /\
  w_env w ⊆ w_env w1.
Proof. apply read_client_config_after_dotenv. Qed.
