(* ===== verification/Services.v ===== *)
(** * The two libraries the workflow calls, as interfaces

    [src/cdsAPI.py] hands the real work to two libraries:
    - [cdsapi.Client] (lines 11-14 build it, line 57 calls
      [client.retrieve(dataset, request, output_file)]), which sends the
      request to the Climate Data Store, waits for it, and downloads the
      result into [output_file];
    - [xarray.open_dataset(nc_file, engine="netcdf4")] (line 66), which
      opens the file and gives a [Dataset] whose [str] the script logs.

    Neither is repository code.  Each is a type class: [CdsClient] and
    [DatasetReader] state the operations the script uses, and
    [CdsClientLaws] and [DatasetReaderLaws] the promises the workflow's
    theorems rely on.  The theorems of [Workflow.v] are proved for every
    instance; [Fakes.v] gives concrete instances (a fake archive and a
    fake reader, as the spec's design notes suggest for tests) that
    discharge the laws. *)

From stdpp Require Import base strings list gmap.
From Stdlib Require Import String.
From S2P Require Import Prelude PyIO Logging Config Request.

Class CdsClient := {
  (** What the constructor [Client(url=..., key=...)] does to logging:
      [Some (level, format)] when it calls [logging.basicConfig] itself
      (legacy [cdsapi] does, unless [quiet=True]). *)
  client_init_logging : option (nat * string);
  (** [client.retrieve(name, request, target)] of a client built with the
      given configuration. *)
  client_retrieve : ClientConfig -> string -> PyDict -> string -> PyM unit }.

(** A retrieval sends one request to the archive, whatever its outcome;
    one that returns normally has written the target file (the download
    blocks until the file is complete). *)
Class CdsClientLaws `{CdsClient} := {
  retrieve_event cfg name req target w :
    w_events (snd (client_retrieve cfg name req target w)) =
    w_events w ++ [EvRetrieve name req target];
  retrieve_writes_target cfg name req target w w' :
    client_retrieve cfg name req target w = (Ret tt, w') ->
    is_Some (w_files w' !! target) }.

Class DatasetReader := {
  Dataset : Type;
  (** [xr.open_dataset(path, engine=engine)] *)
  open_dataset : string -> string -> PyM Dataset;
  (** [str(ds)], what an f-string prints *)
  dataset_str : Dataset -> string }.

(** Opening a file is one open, reads it and writes nothing. *)
Class DatasetReaderLaws `{DatasetReader} := {
  open_dataset_event path engine w :
    w_events (snd (open_dataset path engine w)) = w_events w ++ [EvOpen path engine];
  open_dataset_files_stable path engine : files_stable (open_dataset path engine) }.

#[export] Hint Resolve open_dataset_files_stable : cds.
