(* ===== verification/Fakes.v ===== *)
(** * Concrete services: a fake archive and a fake NetCDF reader

    Instances of the interfaces of [Services.v] that compute, for the
    concrete runs (witnesses, the end-to-end scenario) and to show that the
    laws the workflow theorems assume are satisfiable.

    - [fake_client a]: a client that, like [cdsapi], refuses to work
      without a URL and a key, and otherwise answers every request with the
      reply [fa_reply a]: the bytes it writes to the target, or the error it
      raises.  With [fa_quiet a = false] its constructor configures logging
      the way legacy [cdsapi] does.
    - [fake_reader]: opens a file that exists and starts with a NetCDF
      signature (classic [CDF\001], [CDF\002], [CDF\005], or NetCDF-4's
      HDF5 signature); raises [FileNotFoundError] for a missing path and
      [OSError] for other contents.

    It also fixes the scenario of the concrete runs: a fresh interpreter at
    2025-01-01 12:00:00 with the credentials in a [.env] file. *)

From stdpp Require Import base strings list gmap.
From Stdlib Require Import String.
From Stdlib Require Init.Byte.
From S2P Require Import Prelude Decimal Timestamp PyIO Logging Config Request Services.

Inductive ArchiveReply :=
| ReplyData (bytes : list Byte.byte)
| ReplyError (e : PyExc).

Record FakeArchive := mk_archive {
  fa_reply : ArchiveReply;
  fa_quiet : bool }.

(** Legacy [cdsapi]'s own [basicConfig] format. *)
Definition cdsapi_log_format : string := "%(asctime)s %(levelname)s %(message)s".

Definition missing_config : PyExc :=
  mk_exc "Exception" "Missing/incomplete configuration file: ~/.cdsapirc" SubclassOfException.

Definition fake_retrieve (a : FakeArchive) (cfg : ClientConfig) (name : string)
    (req : PyDict) (target : string) : PyM unit :=
  λ w, let w := record_event (EvRetrieve name req target) w in
       match cfg_url cfg, cfg_key cfg with
       | Some _, Some _ =>
           match fa_reply a with
           | ReplyData b => (Ret tt, set_files (<[target := b]> (w_files w)) w)
           | ReplyError e => (Raise e, w)
           end
       | _, _ => (Raise missing_config, w)
       end.

#[export] Instance fake_client (a : FakeArchive) : CdsClient := {|
  client_init_logging := if fa_quiet a then None else Some (INFO, cdsapi_log_format);
  client_retrieve := fake_retrieve a |}.

(** ** The reader *)

Definition hdf5_signature : list Byte.byte :=
  [Byte.x89; Byte.x48; Byte.x44; Byte.x46; Byte.x0d; Byte.x0a; Byte.x1a; Byte.x0a].

Definition netcdf_signature (b : list Byte.byte) : bool :=
  match b with
  | Byte.x43 :: Byte.x44 :: Byte.x46 :: (Byte.x01 | Byte.x02 | Byte.x05) :: _ => true
  | _ => bool_decide (take 8 b = hdf5_signature)
  end.

Record FakeDataset := mk_fake_dataset {
  fd_path : string;
  fd_size : nat }.

Definition fake_open (path engine : string) : PyM FakeDataset :=
  λ w, let w := record_event (EvOpen path engine) w in
       match w_files w !! path with
       | None =>
           (Raise (mk_exc "FileNotFoundError"
                     ("[Errno 2] No such file or directory: '" +:+ path +:+ "'")
                     SubclassOfException), w)
       | Some b =>
           if netcdf_signature b then (Ret (mk_fake_dataset path (List.length b)), w)
           else (Raise (mk_exc "OSError"
                          ("[Errno -51] NetCDF: Unknown file format: '" +:+ path +:+ "'")
                          SubclassOfException), w)
       end.

#[export] Instance fake_reader : DatasetReader := {|
  Dataset := FakeDataset;
  open_dataset := fake_open;
  dataset_str ds := "<xarray.Dataset> Size: " +:+ fmt_int 1 (fd_size ds) +:+ "B" |}.

(** ** A scenario for concrete runs

    A fresh interpreter at 2025-01-01 12:00:00 local time, an empty
    working directory, no credentials in the environment and a [.env] file
    that provides them. *)

Definition scenario_world : World :=
  mk_world ∅ (mk_datetime 2025 1 1 12 0 0 0) ∅ [] initial_logstate [].

Definition scenario_dotenv : list DotenvEntry :=
  [("CDSAPI_URL", Some "https://cds.climate.copernicus.eu/api");
   ("CDSAPI_KEY", Some "00000000-0000-0000-0000-000000000000")].

Definition scenario_config : ClientConfig :=
  mk_config (Some "https://cds.climate.copernicus.eu/api")
            (Some "00000000-0000-0000-0000-000000000000").

(** A NetCDF-4 file: the HDF5 signature and eight more bytes. *)
Definition scenario_bytes : list Byte.byte := hdf5_signature ++ replicate 8 Byte.x00.

Definition archive_ok : FakeArchive := mk_archive (ReplyData scenario_bytes) true.

Definition http_error : PyExc :=
  mk_exc "HTTPError" "400 Client Error: Bad Request" SubclassOfException.

Definition archive_error : FakeArchive := mk_archive (ReplyError http_error) true.

Definition scenario_name : string := "extract_20250101_120000.nc".

(** A file that is not NetCDF: the reader raises [OSError]. *)
Definition garbage_world : World :=
  set_files {[ scenario_name := [Byte.x00; Byte.x01] ]} scenario_world.

Definition garbage_error : PyExc :=
  mk_exc "OSError" ("[Errno -51] NetCDF: Unknown file format: '" +:+ scenario_name +:+ "'")
    SubclassOfException.

(** The scenario after the script's logging configuration is in force. *)
Definition configured_world : World := set_log script_logstate scenario_world.

(** ** The laws *)

#[export] Instance fake_client_laws a : CdsClientLaws (H := fake_client a).
Proof.
  constructor.
  - intros cfg name req target w. simpl. unfold fake_retrieve.
    by destruct (cfg_url cfg), (cfg_key cfg), (fa_reply a).
  - intros cfg name req target w w'. simpl. unfold fake_retrieve.
    destruct (cfg_url cfg), (cfg_key cfg), (fa_reply a); intros; simplify_eq; try done.
    simpl. rewrite lookup_insert_eq. eauto.
Qed.

#[export] Instance fake_reader_laws : DatasetReaderLaws (H := fake_reader).
Proof.
  constructor.
  - intros path engine w. simpl. unfold fake_open. simpl.
    destruct (w_files w !! path); [case_match|]; done.
  - intros path engine w. simpl. unfold fake_open. simpl.
    destruct (w_files w !! path); [case_match|]; done.
Qed.

(** Both fakes leave the logger's configuration alone. *)
Lemma fake_retrieve_log a cfg d r t w :
  w_log (snd (fake_retrieve a cfg d r t w)) = w_log w.
Proof. unfold fake_retrieve. by destruct (cfg_url cfg), (cfg_key cfg), (fa_reply a). Qed.

Lemma fake_open_log p e w : w_log (snd (fake_open p e w)) = w_log w.
Proof. unfold fake_open. simpl. destruct (w_files w !! p); [case_match|]; done. Qed.
