(* ===== verification/Workflow.v ===== *)
(** * The workflow: [extract_data], [preview_dataset] and the main block

    Lines 53-78 of [src/cdsAPI.py], with the module-level statements of
    lines 9-20 that run before them.  The client and the reader are the
    interfaces of [Services.v]; the global [client] object is the
    configuration [cfg] the module initialisation read from the
    environment, passed explicitly. *)

From stdpp Require Import base strings list gmap.
From Stdlib Require Import String.
From S2P Require Import Prelude Timestamp Request PyIO Logging Config Services Fakes.

Section Workflow.
Context `{CdsClient} `{DatasetReader}.

(** ** The messages the script logs (the f-strings of lines 55-69) *)

Definition msg_extract_start (output_file : string) : string :=
  "Iniciando extração para " +:+ output_file +:+ " ...".
Definition msg_extract_done (output_file : string) : string :=
  "Extração concluída com sucesso: " +:+ output_file.
Definition msg_extract_error (e : PyExc) : string :=
  "Erro durante a extração: " +:+ exc_str e.
Definition msg_preview (ds : Dataset) : string :=
  "Pré-visualização do dataset: " +:+ dataset_str ds.
Definition msg_preview_error (e : PyExc) : string :=
  "Erro ao abrir o arquivo NetCDF: " +:+ exc_str e.

(** ** The functions *)

(** [generate_output_filename(prefix)], reading the clock. *)
Definition generate_output_filename_now (prefix : string) : PyM string :=
  t <- now ;; py_ret (generate_output_filename prefix t).

Definition extract_data (cfg : ClientConfig) (dataset : string) (request : PyDict)
    (output_file : string) : PyM unit :=
  log_info (msg_extract_start output_file) ;;
  py_try (client_retrieve cfg dataset request output_file ;;
          log_info (msg_extract_done output_file))
         (λ e, log_error (msg_extract_error e) ;; py_raise e).

Definition preview_dataset (nc_file : string) : PyM unit :=
  py_try (ds <- open_dataset nc_file "netcdf4" ;;
          log_info (msg_preview ds))
         (λ e, log_error (msg_preview_error e) ;; py_raise e).

Definition era5_dataset : string := "reanalysis-era5-single-levels".

(** The [if __name__ == "__main__":] block. *)
Definition main (cfg : ClientConfig) : PyM unit :=
  let dataset := era5_dataset in
  let request := get_request_params in
  output_file <- generate_output_filename_now default_prefix ;;
  extract_data cfg dataset request output_file ;;
  preview_dataset output_file.

(** The module-level statements, in source order: [load_dotenv()], the
    client's construction (its two [os.getenv] calls, then whatever the
    constructor does to logging), then [logging.basicConfig]. *)
Definition module_init (dotenv : list DotenvEntry) : PyM ClientConfig :=
  load_dotenv dotenv ;;
  cfg <- read_client_config ;;
  match client_init_logging with
  | Some (lvl, fmt) => basicConfig (Some lvl) (Some fmt)
  | None => py_ret tt
  end ;;
  configure_logging ;;
  py_ret cfg.

Definition script (dotenv : list DotenvEntry) : PyM unit :=
  cfg <- module_init dotenv ;; main cfg.

(** The logging state the client's constructor leaves. *)
Definition client_logstate (ls : LogState) : LogState :=
  match client_init_logging with
  | Some (lvl, fmt) => basicConfig_state (Some lvl) (Some fmt) ls
  | None => ls
  end.

(** ** The process *)

(** Exit status of the interpreter: [0] on normal return; an uncaught
    exception gives [1], an uncaught [KeyboardInterrupt] the SIGINT
    status [130], [SystemExit(code)] its code. *)
Definition exit_status (o : outcome unit) : nat :=
  match o with
  | Ret _ => 0
  | Raise e =>
      match exc_class e with
      | SubclassOfException => 1
      | KeyboardInterrupt => 130
      | SystemExit c => c
      end
  end.

(** What the interpreter prints for an uncaught exception (the frames of
    the traceback are elided); [SystemExit] prints nothing. *)
Definition traceback_lines (e : PyExc) : list string :=
  match exc_class e with
  | SystemExit _ => []
  | _ => ["Traceback (most recent call last):";
          exc_type e +:+ (if decide (exc_str e = "") then "" else ": " +:+ exc_str e)]
  end.

Definition run_program (dotenv : list DotenvEntry) (w : World) : nat * World :=
  match script dotenv w with
  | (Ret _, w') => (0, w')
  | (Raise e, w') => (exit_status (Raise e), append_stderr (traceback_lines e) w')
  end.

(** ** Each function on each branch *)

Lemma log_at_ret lvl msg w : log_at lvl msg w = (Ret tt, snd (log_at lvl msg w)).
Proof. unfold log_at, py_bind, py_get. simpl. by case_decide. Qed.

Lemma extract_data_eq cfg ds r f w :
  extract_data cfg ds r f w =
  let w1 := snd (log_info (msg_extract_start f) w) in
  match client_retrieve cfg ds r f w1 with
  | (Ret _, w2) => (Ret tt, snd (log_info (msg_extract_done f) w2))
  | (Raise e, w2) =>
      if is_exception e then (Raise e, snd (log_error (msg_extract_error e) w2))
      else (Raise e, w2)
  end.
Proof.
  unfold extract_data, log_info, log_error.
  rewrite (py_bind_Ret _ _ _ _ _ (log_at_ret _ _ w)). simpl.
  unfold py_try, py_bind at 1.
  destruct (client_retrieve _ _ _ _ _) as [[[]|e] w2]; [by rewrite log_at_ret|].
  destruct (is_exception e); [|done].
  by rewrite (py_bind_Ret _ _ _ _ _ (log_at_ret _ _ w2)).
Qed.

Lemma preview_dataset_eq f w :
  preview_dataset f w =
  match open_dataset f "netcdf4" w with
  | (Ret ds, w2) => (Ret tt, snd (log_info (msg_preview ds) w2))
  | (Raise e, w2) =>
      if is_exception e then (Raise e, snd (log_error (msg_preview_error e) w2))
      else (Raise e, w2)
  end.
Proof.
  unfold preview_dataset, log_info, log_error, py_try, py_bind at 1.
  destruct (open_dataset f "netcdf4" w) as [[ds|e] w2]; [by rewrite log_at_ret|].
  destruct (is_exception e); [|done].
  by rewrite (py_bind_Ret _ _ _ _ _ (log_at_ret _ _ w2)).
Qed.

Lemma main_eq cfg w :
  main cfg w =
  py_bind (extract_data cfg era5_dataset get_request_params
             (generate_output_filename default_prefix (w_clock w)))
          (λ _, preview_dataset (generate_output_filename default_prefix (w_clock w))) w.
Proof. done. Qed.

End Workflow.

Section WorkflowTheorems.
Context `{CdsClient} `{DatasetReader}.

Lemma files_stable_log_info msg : files_stable (log_info msg).
Proof. apply stable_log_at, log_frame_files. Qed.

Lemma files_stable_log_error msg : files_stable (log_error msg).
Proof. apply stable_log_at, log_frame_files. Qed.

Lemma main_run_retrieve_error cfg w e w2 :
  let f := generate_output_filename default_prefix (w_clock w) in
  client_retrieve cfg era5_dataset get_request_params f
    (snd (log_info (msg_extract_start f) w)) = (Raise e, w2) ->
  main cfg w =
  (Raise e, if is_exception e then snd (log_error (msg_extract_error e) w2) else w2).
Proof.
  intros f Hr. rewrite main_eq. fold f.
  erewrite py_bind_Raise; [done|].
  rewrite extract_data_eq. simpl. rewrite Hr. by destruct (is_exception e).
Qed.

(** C1: when the retrieval raises, [main] raises that very
    exception; an [Exception] is first logged with its message, a
    [KeyboardInterrupt] or [SystemExit] passes unlogged; and nothing runs
    after it: the preview never opens the file. *)
Theorem main_retrieve_error cfg w e w2 :
  let f := generate_output_filename default_prefix (w_clock w) in
  client_retrieve cfg era5_dataset get_request_params f
    (snd (log_info (msg_extract_start f) w)) = (Raise e, w2) ->
  main cfg w =
  (Raise e, if is_exception e then snd (log_error (msg_extract_error e) w2) else w2).
Proof. apply main_run_retrieve_error. Qed.

Lemma module_init_run dotenv w :
  module_init dotenv w =
  (Ret (mk_config (env_or_dotenv (w_env w) dotenv "CDSAPI_URL")
                  (env_or_dotenv (w_env w) dotenv "CDSAPI_KEY")),
   set_log (basicConfig_state (Some INFO) (Some script_log_format)
              (client_logstate (w_log w)))
           (snd (load_dotenv dotenv w))).
Proof.
  unfold module_init. rewrite py_bind_Ret with (a := tt) (w' := snd (load_dotenv dotenv w)) by done.
  rewrite (py_bind_Ret _ _ _ _ _ (proj1 (read_client_config_after_dotenv dotenv w))).
  unfold client_logstate. destruct client_init_logging as [[lvl fmt]|]; done.
Qed.

(** C8: in a fresh interpreter the log configuration in
    force after the module's top-level statements is the client
    constructor's when it calls [logging.basicConfig] (the script's own
    call at line 17 then does nothing, its format is never used), and the
    script's ([INFO], ["%(asctime)s - %(levelname)s - %(message)s"])
    otherwise. *)
Theorem module_init_logging dotenv w :
  w_log w = initial_logstate ->
  w_log (snd (module_init dotenv w)) =
  match client_init_logging with
  | Some (lvl, fmt) => mk_logstate lvl [fmt]
  | None => script_logstate
  end.
Proof.
  intros Hl. rewrite module_init_run. simpl. rewrite Hl.
  unfold client_logstate. by destruct client_init_logging as [[lvl fmt]|].
Qed.

Context `{!CdsClientLaws} `{!DatasetReaderLaws}.

Lemma main_run_retrieve_ok cfg w w2 :
  let f := generate_output_filename default_prefix (w_clock w) in
  client_retrieve cfg era5_dataset get_request_params f
    (snd (log_info (msg_extract_start f) w)) = (Ret tt, w2) ->
  let w3 := snd (log_info (msg_extract_done f) w2) in
  main cfg w = preview_dataset f w3 /\ is_Some (w_files w3 !! f).
Proof.
  intros f Hr w3. split.
  - rewrite main_eq. fold f. erewrite py_bind_Ret; [done|].
    rewrite extract_data_eq. simpl. by rewrite Hr.
  - unfold w3. rewrite files_stable_log_info. by eapply retrieve_writes_target.
Qed.

(** C3: when the retrieval returns, [main] continues with the
    preview of the same path, after the success line, and the file is
    there when the preview starts. *)
Theorem main_retrieve_ok cfg w w2 :
  let f := generate_output_filename default_prefix (w_clock w) in
  client_retrieve cfg era5_dataset get_request_params f
    (snd (log_info (msg_extract_start f) w)) = (Ret tt, w2) ->
  let w3 := snd (log_info (msg_extract_done f) w2) in
  main cfg w = preview_dataset f w3 /\ is_Some (w_files w3 !! f).
Proof. apply main_run_retrieve_ok. Qed.

Lemma preview_run_error f w e w' :
  open_dataset f "netcdf4" w = (Raise e, w') -> is_exception e = true ->
  preview_dataset f w = (Raise e, snd (log_error (msg_preview_error e) w')) /\
  w_files (snd (preview_dataset f w)) = w_files w.
Proof.
  intros Ho He. rewrite preview_dataset_eq, Ho, He. split; [done|].
  simpl. rewrite files_stable_log_error.
  pose proof (open_dataset_files_stable f "netcdf4" w) as Hs.
  by rewrite Ho in Hs.
Qed.

(** C5: when opening the file raises an [Exception], the
    preview logs it and raises it again, and the file system is as it
    was before the preview. *)
Theorem preview_dataset_error f w e w' :
  open_dataset f "netcdf4" w = (Raise e, w') -> is_exception e = true ->
  preview_dataset f w = (Raise e, snd (log_error (msg_preview_error e) w')) /\
  w_files (snd (preview_dataset f w)) = w_files w.
Proof. apply preview_run_error. Qed.

Lemma events_log_at lvl msg w : w_events (snd (log_at lvl msg w)) = w_events w.
Proof. apply stable_log_at, log_frame_events. Qed.

Lemma preview_dataset_events f w :
  w_events (snd (preview_dataset f w)) = w_events w ++ [EvOpen f "netcdf4"].
Proof.
  rewrite preview_dataset_eq.
  pose proof (open_dataset_event f "netcdf4" w) as He.
  destruct (open_dataset f "netcdf4" w) as [[ds|e] w2]; simpl in *;
    [|destruct (is_exception e)]; simpl; unfold log_info, log_error;
    rewrite ?events_log_at; done.
Qed.

Lemma preview_dataset_files_stable f : files_stable (preview_dataset f).
Proof.
  unfold preview_dataset. apply stable_try; intros; apply stable_bind; intros;
    auto using files_stable_log_info, files_stable_log_error with cds.
Qed.

Lemma module_init_clock dotenv w : w_clock (snd (module_init dotenv w)) = w_clock w.
Proof. by rewrite module_init_run. Qed.

(** C4: what the process does, branch by branch.  After the module's
    initialisation returns the configuration [cfg], the name is made from
    the clock at start; if the retrieval raises [e], the process exits
    with [e]'s status, after the extraction error line when [e] is an
    [Exception], and the interpreter prints [e]'s traceback line; if the
    retrieval returns and the open of that file raises [e], the same
    happens with the preview error line; if both return, the process
    exits with 0 right after the preview line. *)
Theorem run_program_exit dotenv w cfg w1 :
  module_init dotenv w = (Ret cfg, w1) ->
  let f := generate_output_filename default_prefix (w_clock w) in
  match client_retrieve cfg era5_dataset get_request_params f
          (snd (log_info (msg_extract_start f) w1)) with
  | (Raise e, w2) =>
      run_program dotenv w =
      (exit_status (Raise e),
       append_stderr (traceback_lines e)
         (if is_exception e then snd (log_error (msg_extract_error e) w2) else w2))
  | (Ret _, w2) =>
      match open_dataset f "netcdf4" (snd (log_info (msg_extract_done f) w2)) with
      | (Ret ds, w3) => run_program dotenv w = (0, snd (log_info (msg_preview ds) w3))
      | (Raise e, w3) =>
          run_program dotenv w =
          (exit_status (Raise e),
           append_stderr (traceback_lines e)
             (if is_exception e then snd (log_error (msg_preview_error e) w3) else w3))
      end
  end.
Proof.
  intros Hm f.
  assert (Hc : w_clock w1 = w_clock w) by (by rewrite <- (module_init_clock dotenv w), Hm).
  unfold run_program, script. rewrite (py_bind_Ret _ _ _ _ _ Hm).
  destruct (client_retrieve cfg era5_dataset get_request_params f
              (snd (log_info (msg_extract_start f) w1))) as [[[]|e] w2] eqn:Hr;
    unfold f in Hr; rewrite <- Hc in Hr.
  - destruct (main_run_retrieve_ok cfg w1 w2 Hr) as [-> _]. rewrite preview_dataset_eq, Hc.
    fold f. destruct (open_dataset f "netcdf4" _) as [[ds|e] w3]; [done|].
    by destruct (is_exception e).
  - rewrite (main_run_retrieve_error cfg w1 e w2 Hr). by destruct (is_exception e).
Qed.

End WorkflowTheorems.

(** ** The lines a run writes *)

Section LogKeepingServices.
Context `{CdsClient} `{DatasetReader} `{!CdsClientLaws}.

(** Services that leave the logger's configuration alone (they may write
    to standard error or change anything else). *)
Hypothesis retrieve_keeps_log : forall cfg d r t w,
  w_log (snd (client_retrieve cfg d r t w)) = w_log w.
Hypothesis open_keeps_log : forall p e w,
  w_log (snd (open_dataset p e w)) = w_log w.

Lemma log_info_script msg w :
  w_log w = script_logstate ->
  log_info msg w = (Ret tt, append_stderr [script_line INFO msg (w_clock w)] w).
Proof. intros Hl. apply log_at_script; [done|unfold INFO; lia]. Qed.

Lemma log_error_script msg w :
  w_log w = script_logstate ->
  log_error msg w = (Ret tt, append_stderr [script_line ERROR msg (w_clock w)] w).
Proof. intros Hl. apply log_at_script; [done|unfold INFO, ERROR; lia]. Qed.

(** [main] under the script's configuration: every line it logs is one
    [append_stderr] on the world the previous call left. *)
Lemma main_run_script cfg w :
  w_log w = script_logstate ->
  let f := generate_output_filename default_prefix (w_clock w) in
  let w1 := append_stderr [script_line INFO (msg_extract_start f) (w_clock w)] w in
  main cfg w =
  match client_retrieve cfg era5_dataset get_request_params f w1 with
  | (Raise e, w2) =>
      (Raise e, if is_exception e
                then append_stderr [script_line ERROR (msg_extract_error e) (w_clock w2)] w2
                else w2)
  | (Ret _, w2) =>
      let w3 := append_stderr [script_line INFO (msg_extract_done f) (w_clock w2)] w2 in
      match open_dataset f "netcdf4" w3 with
      | (Ret ds, w4) => (Ret tt, append_stderr [script_line INFO (msg_preview ds) (w_clock w4)] w4)
      | (Raise e, w4) =>
          (Raise e, if is_exception e
                    then append_stderr [script_line ERROR (msg_preview_error e) (w_clock w4)] w4
                    else w4)
      end
  end.
Proof.
  intros Hl f w1.
  assert (Hw1 : snd (log_info (msg_extract_start f) w) = w1) by (by rewrite log_info_script).
  pose proof (retrieve_keeps_log cfg era5_dataset get_request_params f w1) as Hl2.
  destruct (client_retrieve cfg era5_dataset get_request_params f w1)
    as [[[]|e] w2] eqn:Hr; simpl in Hl2; rewrite <- Hw1 in Hr.
  - destruct (main_run_retrieve_ok cfg w w2 Hr) as [-> _]. fold f.
    rewrite (log_info_script _ w2) by (rewrite Hl2; done). simpl.
    set (w3 := append_stderr [script_line INFO (msg_extract_done f) (w_clock w2)] w2).
    rewrite preview_dataset_eq.
    pose proof (open_keeps_log f "netcdf4" w3) as Hl4.
    destruct (open_dataset f "netcdf4" w3) as [[ds|e] w4]; simpl in Hl4.
    + by rewrite log_info_script by (rewrite Hl4; simpl; rewrite Hl2; done).
    + destruct (is_exception e); [|done].
      by rewrite log_error_script by (rewrite Hl4; simpl; rewrite Hl2; done).
  - rewrite (main_run_retrieve_error cfg w e w2 Hr).
    destruct (is_exception e); [|done].
    by rewrite log_error_script by (rewrite Hl2; done).
Qed.

(** C6: under the script's logging configuration, a run of [main] that
    returns went through exactly these calls: the start line, then the
    retrieval on the world with that line, then the success line after
    whatever the client did, then the open of the same file on that world,
    then the preview line with the dataset's [str]; nothing follows it. *)
Theorem main_success_lines cfg w :
  w_log w = script_logstate -> fst (main cfg w) = Ret tt ->
  let f := generate_output_filename default_prefix (w_clock w) in
  let w1 := append_stderr [script_line INFO (msg_extract_start f) (w_clock w)] w in
  exists w2 ds w4,
    client_retrieve cfg era5_dataset get_request_params f w1 = (Ret tt, w2) /\
    open_dataset f "netcdf4"
      (append_stderr [script_line INFO (msg_extract_done f) (w_clock w2)] w2) = (Ret ds, w4) /\
    snd (main cfg w) = append_stderr [script_line INFO (msg_preview ds) (w_clock w4)] w4.
Proof.
  intros Hl Hret f w1. rewrite (main_run_script cfg w Hl) in Hret |- *. fold f w1 in Hret |- *.
  destruct (client_retrieve _ _ _ _ w1) as [[[]|e] w2] eqn:Hr; [|by destruct (is_exception e)].
  cbv zeta in Hret |- *.
  destruct (open_dataset _ _ _) as [[ds|e] w4] eqn:Ho; [|by destruct (is_exception e)].
  by exists w2, ds, w4.
Qed.

(** C7: under the script's logging configuration, a run of [main] stopped
    by an [Exception] [e] either had its retrieval raise [e], and then
    wrote the extraction error line with [str(e)] and nothing else after
    the client; or had its retrieval return, wrote the success line, had
    the open of the same file raise [e], and then wrote the preview error
    line with [str(e)] and nothing else after the reader. *)
Theorem main_failure_lines cfg w e :
  w_log w = script_logstate -> fst (main cfg w) = Raise e -> is_exception e = true ->
  let f := generate_output_filename default_prefix (w_clock w) in
  let w1 := append_stderr [script_line INFO (msg_extract_start f) (w_clock w)] w in
  (exists w2,
     client_retrieve cfg era5_dataset get_request_params f w1 = (Raise e, w2) /\
     snd (main cfg w) = append_stderr [script_line ERROR (msg_extract_error e) (w_clock w2)] w2) \/
  (exists w2 w4,
     client_retrieve cfg era5_dataset get_request_params f w1 = (Ret tt, w2) /\
     open_dataset f "netcdf4"
       (append_stderr [script_line INFO (msg_extract_done f) (w_clock w2)] w2) = (Raise e, w4) /\
     snd (main cfg w) = append_stderr [script_line ERROR (msg_preview_error e) (w_clock w4)] w4).
Proof.
  intros Hl Hraise He f w1. rewrite (main_run_script cfg w Hl) in Hraise |- *.
  fold f w1 in Hraise |- *.
  destruct (client_retrieve _ _ _ _ w1) as [[[]|e'] w2] eqn:Hr.
  - right. cbv zeta in Hraise |- *. destruct (open_dataset _ _ _) as [[ds|e'] w4] eqn:Ho; [done|].
    simpl in Hraise. injection Hraise as ->. rewrite He. by exists w2, w4.
  - left. simpl in Hraise. injection Hraise as ->. rewrite He. by exists w2.
Qed.

End LogKeepingServices.

(** ** Concrete runs, with the fakes and the scenario of [Fakes.v] *)

Lemma main_retrieve_error_witness :
  let w2 := snd (fake_retrieve archive_error scenario_config era5_dataset get_request_params
                   scenario_name (snd (log_info (msg_extract_start scenario_name) scenario_world))) in
  @main (fake_client archive_error) fake_reader scenario_config scenario_world =
  (Raise http_error, snd (log_error (msg_extract_error http_error) w2)).
Proof.
  apply (@main_retrieve_error (fake_client archive_error) fake_reader
           scenario_config scenario_world http_error).
  vm_compute. reflexivity.
Defined.

Lemma main_retrieve_ok_witness :
  let w2 := snd (fake_retrieve archive_ok scenario_config era5_dataset get_request_params
                   scenario_name (snd (log_info (msg_extract_start scenario_name) scenario_world))) in
  let w3 := snd (log_info (msg_extract_done scenario_name) w2) in
  @main (fake_client archive_ok) fake_reader scenario_config scenario_world =
    @preview_dataset fake_reader scenario_name w3 /\
  is_Some (w_files w3 !! scenario_name).
Proof.
  apply (@main_retrieve_ok (fake_client archive_ok) fake_reader
           (fake_client_laws archive_ok) scenario_config scenario_world).
  vm_compute. reflexivity.
Defined.

Lemma preview_dataset_error_witness :
  let w' := snd (fake_open scenario_name "netcdf4" garbage_world) in
  @preview_dataset fake_reader scenario_name garbage_world =
    (Raise garbage_error, snd (log_error (msg_preview_error garbage_error) w')) /\
  w_files (snd (@preview_dataset fake_reader scenario_name garbage_world)) =
    w_files garbage_world.
Proof.
  apply (@preview_dataset_error fake_reader fake_reader_laws scenario_name garbage_world
           garbage_error); vm_compute; reflexivity.
Defined.

Lemma module_init_logging_witness :
  w_log (snd (@module_init (fake_client (mk_archive (ReplyData []) false))
                scenario_dotenv scenario_world)) =
  mk_logstate INFO [cdsapi_log_format].
Proof.
  apply (@module_init_logging (fake_client (mk_archive (ReplyData []) false))).
  reflexivity.
Defined.

Lemma main_success_lines_witness :
  let f := scenario_name in
  let w1 := append_stderr [script_line INFO (msg_extract_start f) (w_clock configured_world)]
              configured_world in
  exists w2 (ds : FakeDataset) w4,
    fake_retrieve archive_ok scenario_config era5_dataset get_request_params f w1 = (Ret tt, w2) /\
    fake_open f "netcdf4"
      (append_stderr [script_line INFO (msg_extract_done f) (w_clock w2)] w2) = (Ret ds, w4) /\
    snd (@main (fake_client archive_ok) fake_reader scenario_config configured_world) =
      append_stderr [script_line INFO (@msg_preview fake_reader ds) (w_clock w4)] w4.
Proof.
  apply (@main_success_lines (fake_client archive_ok) fake_reader (fake_client_laws archive_ok)
           (fake_retrieve_log archive_ok) fake_open_log scenario_config configured_world);
    vm_compute; reflexivity.
Defined.

Lemma main_failure_lines_witness :
  let f := scenario_name in
  let w1 := append_stderr [script_line INFO (msg_extract_start f) (w_clock configured_world)]
              configured_world in
  let w' := snd (@main (fake_client archive_error) fake_reader scenario_config configured_world) in
  (exists w2,
     fake_retrieve archive_error scenario_config era5_dataset get_request_params f w1 =
       (Raise http_error, w2) /\
     w' = append_stderr [script_line ERROR (msg_extract_error http_error) (w_clock w2)] w2) \/
  (exists w2 w4,
     fake_retrieve archive_error scenario_config era5_dataset get_request_params f w1 = (Ret tt, w2) /\
     fake_open f "netcdf4"
       (append_stderr [script_line INFO (msg_extract_done f) (w_clock w2)] w2) = (Raise http_error, w4) /\
     w' = append_stderr [script_line ERROR (msg_preview_error http_error) (w_clock w4)] w4).
Proof.
  apply (@main_failure_lines (fake_client archive_error) fake_reader
           (fake_client_laws archive_error) (fake_retrieve_log archive_error) fake_open_log
           scenario_config configured_world http_error); vm_compute; reflexivity.
Defined.

Lemma run_program_exit_witness :
  let f := scenario_name in
  let w1 := snd (@module_init (fake_client archive_ok) scenario_dotenv scenario_world) in
  match fake_retrieve archive_ok scenario_config era5_dataset get_request_params f
          (snd (log_info (msg_extract_start f) w1)) with
  | (Raise e, w2) =>
      @run_program (fake_client archive_ok) fake_reader scenario_dotenv scenario_world =
      (exit_status (Raise e),
       append_stderr (traceback_lines e)
         (if is_exception e then snd (log_error (msg_extract_error e) w2) else w2))
  | (Ret _, w2) =>
      match fake_open f "netcdf4" (snd (log_info (msg_extract_done f) w2)) with
      | (Ret ds, w3) =>
          @run_program (fake_client archive_ok) fake_reader scenario_dotenv scenario_world =
          (0, snd (log_info (@msg_preview fake_reader ds) w3))
      | (Raise e, w3) =>
          @run_program (fake_client archive_ok) fake_reader scenario_dotenv scenario_world =
          (exit_status (Raise e),
           append_stderr (traceback_lines e)
             (if is_exception e then snd (log_error (msg_preview_error e) w3) else w3))
      end
  end.
Proof.
  apply (@run_program_exit (fake_client archive_ok) fake_reader (fake_client_laws archive_ok)
           scenario_dotenv scenario_world scenario_config).
  vm_compute. reflexivity.
Defined.

