(* ===== verification/Refinement.v ===== *)
(** * The workflow contract and its refinement

    The spec describes the workflow as three steps with error propagation:
    name the output file, retrieve into it (the file exists afterwards, or
    the run fails), preview it (without changing any file, or the run
    fails).  [Contract.step] is that description as a transition relation
    on an abstract state (the phase and the file system); [main_refines]
    shows that every run of [Workflow.main], for every client and reader
    that keep the promises of [Services.v], is a run of the contract ending
    in [Done] when [main] returns and in [Failed e] when it raises [e]. *)

From stdpp Require Import base strings list gmap.
From Stdlib Require Import String.
From Stdlib Require Init.Byte.
From S2P Require Import Prelude Timestamp Request PyIO Logging Config Services Fakes Workflow.

Module Contract.

Inductive phase :=
| Start
| Named (f : string)
| Extracted (f : string)
| Done (f : string)
| Failed (e : PyExc).

(** The phase, the file system, and the external calls made so far. *)
Definition astate : Type := phase * gmap string (list Byte.byte) * list Event.

Section Steps.
(** The dataset and request the workflow asks for. *)
Variables (dataset : string) (request : PyDict).

Inductive step : astate -> astate -> Prop :=
| step_name f fs evs :
    step (Start, fs, evs) (Named f, fs, evs)
| step_retrieve_ok f fs fs' evs :
    is_Some (fs' !! f) ->
    step (Named f, fs, evs) (Extracted f, fs', evs ++ [EvRetrieve dataset request f])
| step_retrieve_fail f e fs fs' evs :
    step (Named f, fs, evs) (Failed e, fs', evs ++ [EvRetrieve dataset request f])
| step_preview_ok f fs evs :
    step (Extracted f, fs, evs) (Done f, fs, evs ++ [EvOpen f "netcdf4"])
| step_preview_fail f e fs evs :
    step (Extracted f, fs, evs) (Failed e, fs, evs ++ [EvOpen f "netcdf4"]).

End Steps.

End Contract.

Section Refinement.
Context `{CdsClient} `{DatasetReader} `{!CdsClientLaws} `{!DatasetReaderLaws}.

Abbreviation cstep := (Contract.step era5_dataset get_request_params).

Lemma preview_refines f s0 w :
  star cstep s0 (Contract.Extracted f, w_files w, w_events w) ->
  exists ph,
    star cstep s0 (ph, w_files (snd (preview_dataset f w)), w_events (snd (preview_dataset f w))) /\
    match fst (preview_dataset f w) with
    | Ret _ => ph = Contract.Done f
    | Raise e => ph = Contract.Failed e
    end.
Proof.
  intros Hs. rewrite preview_dataset_files_stable, preview_dataset_events.
  destruct (preview_dataset f w) as [[[]|e] w'] eqn:Hp; simpl.
  - exists (Contract.Done f). split; [|done].
    eapply star_trans; [exact Hs|]. apply star_one. constructor.
  - exists (Contract.Failed e). split; [|done].
    eapply star_trans; [exact Hs|]. apply star_one. constructor.
Qed.

Lemma main_run_refines cfg w :
  exists ph,
    star cstep (Contract.Start, w_files w, w_events w)
      (ph, w_files (snd (main cfg w)), w_events (snd (main cfg w))) /\
    match fst (main cfg w) with
    | Ret _ => ph = Contract.Done (generate_output_filename default_prefix (w_clock w))
    | Raise e => ph = Contract.Failed e
    end.
Proof.
  set (f := generate_output_filename default_prefix (w_clock w)).
  pose proof (retrieve_event cfg era5_dataset get_request_params f
                (snd (log_info (msg_extract_start f) w))) as He.
  unfold log_info in He. rewrite events_log_at in He.
  destruct (client_retrieve cfg era5_dataset get_request_params f
              (snd (log_info (msg_extract_start f) w))) as [[[]|e] w2] eqn:Hr;
    unfold log_info in Hr; rewrite Hr in He; simpl in He.
  - destruct (main_run_retrieve_ok cfg w w2 Hr) as [Hm Hf]. rewrite Hm. fold f in Hf |- *.
    apply preview_refines.
    eapply star_step; [constructor|]. apply star_one.
    unfold log_info. rewrite events_log_at, He. by constructor.
  - rewrite (main_run_retrieve_error cfg w e w2 Hr). exists (Contract.Failed e).
    split; [|done]. eapply star_step; [apply (Contract.step_name _ _ f)|].
    destruct (is_exception e); simpl;
      unfold log_error; rewrite ?events_log_at, He; apply star_one; constructor.
Qed.


(** C2: every run of [main] is a run of the contract: from [Start] on the
    initial files and calls, one request for the ERA5 data under the name
    made from the clock, then (only if it returned) one open of that same
    file; ending in [Done] when [main] returns and in [Failed e] when it
    raises [e]. *)
Theorem main_refines cfg w :
  exists ph,
    star cstep (Contract.Start, w_files w, w_events w)
      (ph, w_files (snd (main cfg w)), w_events (snd (main cfg w))) /\
    match fst (main cfg w) with
    | Ret _ => ph = Contract.Done (generate_output_filename default_prefix (w_clock w))
    | Raise e => ph = Contract.Failed e
    end.
Proof. apply main_run_refines. Qed.

End Refinement.

(** ** Witnesses *)

Lemma main_refines_witness :
  exists ph,
    star (Contract.step era5_dataset get_request_params)
      (Contract.Start, w_files scenario_world, w_events scenario_world)
      (ph, w_files (snd (@main (fake_client archive_ok) fake_reader scenario_config scenario_world)),
       w_events (snd (@main (fake_client archive_ok) fake_reader scenario_config scenario_world))) /\
    match fst (@main (fake_client archive_ok) fake_reader scenario_config scenario_world) with
    | Ret _ => ph = Contract.Done (generate_output_filename default_prefix (w_clock scenario_world))
    | Raise e => ph = Contract.Failed e
    end.
Proof.
  apply (@main_refines (fake_client archive_ok) fake_reader (fake_client_laws archive_ok)
           fake_reader_laws).
Defined.

